(** * The game-data overlay engine of [cr/abc.py]

    A shallow embedding of [DataContainer] (the per-unit template loader
    [_load_json_meta], the instance constructor, [__eq__] and [__hash__]) and
    of [DataContainerHolder] (the registry: [_load_json], [load], [get]).

    Conventions of the model.
    - A parsed JSON document is a value of [json]; numbers are integers, the
      balance files hold no fractional numbers.  A JSON object keeps its
      entries in file order, as a Python [dict] does.
    - Python text is modelled as ASCII text: [str.isnumeric], [str.lower] and
      [repr] are the ASCII restrictions of the Python functions.
    - A Python exception is a value of [exn]; a computation that may raise is
      a [result]. *)

From stdpp Require Import base gmap list strings.
From Stdlib Require Import ZArith String Ascii List Lia DecimalString.
Import ListNotations.

Local Open Scope string_scope.
Local Open Scope Z_scope.

#[local] Set Warnings "-register-all".

(** ** JSON values and exceptions *)

Inductive json : Type :=
| JNull
| JBool (b : bool)
| JInt (n : Z)
| JStr (s : string)
| JList (l : list json)
| JDict (d : list (string * json)).

Inductive exn : Type :=
| AttributeError
| TypeError
| ValueError
| KeyError.

Inductive result (A : Type) : Type :=
| Ok (a : A)
| Raise (e : exn).

Arguments Ok {A} a.
Arguments Raise {A} e.

Definition rbind {A B : Type} (m : result A) (k : A -> result B) : result B :=
  match m with
  | Ok a => k a
  | Raise e => Raise e
  end.

Notation "'let!' x ':=' m 'in' k" := (rbind m (fun x => k))
  (at level 10, x name, m at level 100, k at level 200).

(** [[f(x) for x in xs]] where [f] may raise: the first exception wins. *)
Fixpoint mapM {A B : Type} (f : A -> result B) (xs : list A) : result (list B) :=
  match xs with
  | [] => Ok []
  | x :: xs' =>
      let! y := f x in
      let! ys := mapM f xs' in
      Ok (y :: ys)
  end.

(** ** Python built-ins on text *)

Definition is_digit (c : ascii) : bool :=
  let n := nat_of_ascii c in (48 <=? n)%nat && (n <=? 57)%nat.

Fixpoint all_digits (s : string) : bool :=
  match s with
  | EmptyString => true
  | String c s' => is_digit c && all_digits s'
  end.

(** [str.isnumeric()] *)
Definition isnumeric (s : string) : bool :=
  match s with
  | EmptyString => false
  | _ => all_digits s
  end.

Definition lower_ascii (c : ascii) : ascii :=
  let n := nat_of_ascii c in
  if (65 <=? n)%nat && (n <=? 90)%nat then ascii_of_nat (n + 32) else c.

(** [str.lower()] *)
Fixpoint lower (s : string) : string :=
  match s with
  | EmptyString => EmptyString
  | String c s' => String (lower_ascii c) (lower s')
  end.

Fixpoint is_prefix (p s : string) : bool :=
  match p, s with
  | EmptyString, _ => true
  | String a p', String b s' => Ascii.eqb a b && is_prefix p' s'
  | String _ _, EmptyString => false
  end.

(** [sub in s] on text *)
Fixpoint contains (sub s : string) : bool :=
  is_prefix sub s ||
  match s with
  | EmptyString => false
  | String _ s' => contains sub s'
  end.

(** [x in xs] for a text [x] and a list of texts *)
Definition str_in (x : string) (xs : list string) : bool :=
  existsb (String.eqb x) xs.

(** [str(n)] for an integer *)
Definition str_of_Z (n : Z) : string := NilZero.string_of_int (Z.to_int n).

Definition hex_digit (n : nat) : ascii :=
  if (n <? 10)%nat then ascii_of_nat (48 + n) else ascii_of_nat (87 + n).

(** One character of [repr(s)], between quotes [q]. *)
Definition repr_char (q c : ascii) : string :=
  let n := nat_of_ascii c in
  if Ascii.eqb c "\"%char then "\\"
  else if Ascii.eqb c q then String "\"%char (String q EmptyString)
  else if (n =? 9)%nat then "\t"
  else if (n =? 10)%nat then "\n"
  else if (n =? 13)%nat then "\r"
  else if (n <? 32)%nat || (n =? 127)%nat then
    String "\"%char (String "x"%char (String (hex_digit (n / 16)) (String (hex_digit (n mod 16)) EmptyString)))
  else String c EmptyString.

Fixpoint repr_chars (q : ascii) (s : string) : string :=
  match s with
  | EmptyString => EmptyString
  | String c s' => repr_char q c +:+ repr_chars q s'
  end.

Definition has_char (c : ascii) (s : string) : bool :=
  contains (String c EmptyString) s.

(** [repr(s)] for a text: single quotes, unless the text holds a single quote
    and no double quote. *)
Definition repr_str (s : string) : string :=
  let sq := ascii_of_nat 39 in
  let dq := ascii_of_nat 34 in
  let q := if has_char sq s && negb (has_char dq s) then dq else sq in
  String q (repr_chars q s +:+ String q EmptyString).

Fixpoint join (sep : string) (xs : list string) : string :=
  match xs with
  | [] => EmptyString
  | [x] => x
  | x :: xs' => x +:+ sep +:+ join sep xs'
  end.

(** [repr(v)] *)
Fixpoint repr (v : json) : string :=
  match v with
  | JNull => "None"
  | JBool true => "True"
  | JBool false => "False"
  | JInt n => str_of_Z n
  | JStr s => repr_str s
  | JList l => "[" +:+ join ", " (List.map repr l) +:+ "]"
  | JDict d =>
      "{" +:+ join ", " (List.map (fun kv => repr_str (fst kv) +:+ ": " +:+ repr (snd kv)) d) +:+ "}"
  end.

(** [str(v)] *)
Definition py_str (v : json) : string :=
  match v with
  | JStr s => s
  | _ => repr v
  end.

(** ** Python built-ins on JSON values *)

(** Truth value of [v], as [not v], [if v] and [any] test it. *)
Definition truthy (v : json) : bool :=
  match v with
  | JNull => false
  | JBool b => b
  | JInt n => negb (n =? 0)
  | JStr s => negb (String.eqb s "")
  | JList l => match l with [] => false | _ => true end
  | JDict d => match d with [] => false | _ => true end
  end.

(** The integer an [int] or [bool] stands for in comparisons. *)
Definition int_val (v : json) : option Z :=
  match v with
  | JInt n => Some n
  | JBool b => Some (if b then 1 else 0)
  | _ => None
  end.

(** [d.get(k)] on the entries of a [dict]: [None] in Rocq is a missing key. *)
Fixpoint dict_get (d : list (string * json)) (k : string) : option json :=
  match d with
  | [] => None
  | (k', v) :: d' => if String.eqb k' k then Some v else dict_get d' k
  end.

(** [d.get(k, default)] *)
Definition dict_get_default (d : list (string * json)) (k : string) (default : json) : json :=
  match dict_get d k with
  | Some v => v
  | None => default
  end.

(** [v.get(k, default)] on any value: only a [dict] has [get]. *)
Definition py_get (v : json) (k : string) (default : json) : result json :=
  match v with
  | JDict d => Ok (dict_get_default d k default)
  | _ => Raise AttributeError
  end.

(** [v == s] for a text literal [s] *)
Definition eq_str (v : json) (s : string) : bool :=
  match v with
  | JStr s' => String.eqb s' s
  | _ => false
  end.

(** [n == v] for an integer [n] *)
Definition eq_int (n : Z) (v : json) : bool :=
  match int_val v with
  | Some m => n =? m
  | None => false
  end.

(** [max(v, n)] for an integer [n]: [n if n > v else v]; [n > v] raises on a
    value that is no number. *)
Definition py_max (v : json) (n : Z) : result json :=
  match int_val v with
  | Some m => Ok (if m <? n then JInt n else v)
  | None => Raise TypeError
  end.

(** ** Stat series and value objects of the sibling modules *)

(** Modelled from the spec: [UnitStat] of [cr/utils.py] and [try_enum] of
    [cr/miscmodels.py], which are not among the sources.  A series is the
    ordered sequence of per-level values, index 1 is level 1; a list whose
    entries are all undefined yields the absent series; a level outside
    [1 .. length] is out of range. *)
Record UnitStat (A : Type) : Type := { all_levels : list A }.

Arguments all_levels {A} _.

Definition try_enum_UnitStat {A : Type} (undefined : A -> bool) (values : list A)
  : option (UnitStat A) :=
  if forallb undefined values then None else Some {| all_levels := values |}.

Definition is_null (v : json) : bool :=
  match v with
  | JNull => true
  | _ => false
  end.

(** [series.at(level)]: [None] is the out-of-range failure. *)
Definition stat_at {A : Type} (s : UnitStat A) (level : Z) : option A :=
  if (1 <=? level) && (level <=? Z.of_nat (List.length (all_levels s)))
  then nth_error (all_levels s) (Z.to_nat (level - 1))
  else None.

(** [TimeDelta] and [Resource] are constructed from one keyword argument; their
    classes are in [cr/miscmodels.py] and [cr/enums.py], so a value is kept
    as the argument it was built from. *)
Inductive TimeDelta : Type :=
| TimeDelta_hours (hours : json)
| TimeDelta_minutes (minutes : json)
| TimeDelta_seconds (seconds : json).

Record Resource : Type := { value : json }.

(** ** Templates: the class objects filled by [_load_json_meta] *)

(** The class attribute [is_elixir_troop], [is_dark_troop], ... set to [True]. *)
Inductive category : Type :=
| is_elixir_troop
| is_dark_troop
| is_siege_machine
| is_elixir_spell
| is_dark_spell.

(** The attributes assigned after the laboratory levels are known; a class
    has them exactly when [_load_json_meta] ran to its end ([is_loaded]). *)
Record derived : Type := {
  lab_level : option (UnitStat json);
  housing_space : json;
  speed : option (UnitStat json);
  level : option (UnitStat json);
  upgrade_cost : option (UnitStat json);
  upgrade_resource : Resource;
  upgrade_time : option (UnitStat TimeDelta);
  _is_home_village : bool;
  village : string;
  training_time : TimeDelta;
  ability_time : option (UnitStat json);
  ability_troop_count : option (UnitStat json);
  required_th_level : option (UnitStat json);
  regeneration_time : option (UnitStat TimeDelta)
}.

Record template : Type := {
  class_name : string;
  id : Z;
  name : string;
  lab_to_townhall : list (Z * Z);
  ground_target : json;
  range : option (UnitStat json);
  dps : option (UnitStat json);
  hitpoints : option (UnitStat json);
  flag : option category;
  loaded_attrs : option derived
}.

(** [cls.is_loaded] *)
Definition is_loaded (t : template) : bool :=
  match loaded_attrs t with
  | Some _ => true
  | None => false
  end.

(** ** [DataContainer._load_json_meta] *)

(** [[key for key in json_meta.keys() if key.isnumeric()]] *)
Definition levels_available (json_meta : list (string * json)) : list string :=
  List.map fst (List.filter (fun kv => isnumeric (fst kv)) json_meta).

(** [json_meta.get(level).get(field, default)] *)
Definition level_field (json_meta : list (string * json)) (field : string) (default : json)
    (level : string) : result json :=
  py_get (dict_get_default json_meta level JNull) field default.

(** [[json_meta.get(level).get(field, default) for level in levels_available]] *)
Definition level_fields (json_meta : list (string * json)) (field : string) (default : json)
  : result (list json) :=
  mapM (level_field json_meta field default) (levels_available json_meta).

Definition barracks_family : list string :=
  ["SiegeWorkshop"; "Spell Forge"; "Mini Spell Factory"; "Dark Elixir Barrack"; "Barrack"; "Barrack2"].

(** [production_building in (...)] *)
Definition json_in (v : json) (xs : list string) : bool :=
  existsb (eq_str v) xs.

(** The [if]/[elif] chain on the production building: the building the
    resolution goes on with, and the flag that was set. *)
Definition production_building (PETS_ORDER : list string) (name : string)
    (json_meta : list (string * json)) : json * option category :=
  let pb := dict_get_default json_meta "ProductionBuilding" JNull in
  if eq_str pb "Barrack" then (pb, Some is_elixir_troop)
  else if eq_str pb "Dark Elixir Barrack" then (pb, Some is_dark_troop)
  else if eq_str pb "SiegeWorkshop" then (pb, Some is_siege_machine)
  else if eq_str pb "Spell Forge" then (pb, Some is_elixir_spell)
  else if eq_str pb "Mini Spell Factory" then (pb, Some is_dark_spell)
  else if str_in name PETS_ORDER then (JStr "Pet Shop", None)
  else (pb, None).

(** [buildings.get(production_building)]: the keys of [buildings] are texts;
    a list or a dict is not hashable. *)
Definition buildings_get (buildings : list (string * json)) (pb : json) : result json :=
  match pb with
  | JStr s => Ok (dict_get_default buildings s JNull)
  | JList _ | JDict _ => Raise TypeError
  | _ => Ok JNull
  end.

(** [[first_lab_level] = [lab_level for lab_level, th_level in
    lab_to_townhall.items() if th_level == min_th_level]] *)
Definition first_lab_level (lab_to_townhall : list (Z * Z)) (min_th_level : json) : result Z :=
  match List.filter (fun kv => eq_int (snd kv) min_th_level) lab_to_townhall with
  | [kv] => Ok (fst kv)
  | _ => Raise ValueError
  end.

(** [prod_unit.get(str(min_prod_unit_level)).get("TownHallLevel", 0)], then the
    reverse lookup. *)
Definition unlock_floor (prod_unit min_prod_unit_level : json) (lab_to_townhall : list (Z * Z))
  : result Z :=
  let! unlock := py_get prod_unit (py_str min_prod_unit_level) JNull in
  let! min_th_level := py_get unlock "TownHallLevel" (JInt 0) in
  first_lab_level lab_to_townhall min_th_level.

(** The loop [laboratory_levels.append(max(lab_level, first_lab_level))]. *)
Definition floor_levels (raw : list json) (first : Z) : result (list json) :=
  mapM (fun lab_level => py_max lab_level first) raw.

(** The outcome of the branch on the production building: the list
    [laboratory_levels], or the bare [return]. *)
Inductive lab_outcome : Type :=
| LabLevels (laboratory_levels : list json)
| NotDerivable.

Definition laboratory_levels (buildings : list (string * json)) (lab_to_townhall : list (Z * Z))
    (json_meta : list (string * json)) (pb : json) : result lab_outcome :=
  if negb (truthy pb) then
    let! raw := level_fields json_meta "LaboratoryLevel" JNull in
    Ok (LabLevels raw)
  else
    let! prod_unit := buildings_get buildings pb in
    if json_in pb barracks_family then
      let min_prod_unit_level := dict_get_default json_meta "BarrackLevel" JNull in
      if negb (truthy min_prod_unit_level) then
        let! raw := level_fields json_meta "LaboratoryLevel" JNull in
        Ok (LabLevels raw)
      else
        let! first := unlock_floor prod_unit min_prod_unit_level lab_to_townhall in
        let! raw := level_fields json_meta "LaboratoryLevel" (JInt 1) in
        let! levels := floor_levels raw first in
        Ok (LabLevels levels)
    else if eq_str pb "Pet Shop" then
      let! min_prod_unit_level := py_get (dict_get_default json_meta "1" JNull) "LaboratoryLevel" JNull in
      let! first := unlock_floor prod_unit min_prod_unit_level lab_to_townhall in
      let! raw := level_fields json_meta "LaboratoryLevel" JNull in
      let! levels := floor_levels raw first in
      Ok (LabLevels levels)
    else Ok NotDerivable.

(** [[TimeDelta(...=json_meta.get(level, {}).get(field)) for level in
    levels_available if json_meta.get(level, {}).get(field) is not None]] *)
Definition level_deltas (json_meta : list (string * json)) (field : string)
    (mk : json -> TimeDelta) : result (list TimeDelta) :=
  let! values := level_fields json_meta field JNull in
  Ok (List.map mk (List.filter (fun v => negb (is_null v)) values)).

(** [UnitStat(range(1, n + 1))] *)
Definition level_range (n : nat) : UnitStat json :=
  {| all_levels := List.map (fun i => JInt (Z.of_nat i)) (seq 1 n) |}.

Definition no_delta (_ : TimeDelta) : bool := false.

(** The attributes assigned once [laboratory_levels] is known. *)
Definition load_derived (json_meta : list (string * json)) (dps : option (UnitStat json))
    (labs : list json) : result derived :=
  let! speeds := level_fields json_meta "Speed" JNull in
  let! upgrade_costs := level_fields json_meta "UpgradeCost" JNull in
  let! upgrade_times := level_deltas json_meta "UpgradeTimeH" TimeDelta_hours in
  let home := negb (truthy (dict_get_default json_meta "VillageType" JNull)) in
  let! ability_times := level_fields json_meta "AbilityTime" JNull in
  let! ability_troop_counts := level_fields json_meta "AbilitySummonTroopCount" JNull in
  let! required_townhall_levels := level_fields json_meta "RequiredTownHallLevel" JNull in
  let! regeneration_times := level_deltas json_meta "RegenerationTimeMinutes" TimeDelta_minutes in
  Ok {| lab_level := try_enum_UnitStat is_null labs;
        housing_space := dict_get_default json_meta "HousingSpace" (JInt 0);
        speed := try_enum_UnitStat is_null speeds;
        level := match dps with
                 | Some s => Some (level_range (List.length (all_levels s)))
                 | None => None
                 end;
        upgrade_cost := try_enum_UnitStat is_null upgrade_costs;
        upgrade_resource := {| value := dict_get_default json_meta "UpgradeResource" JNull |};
        upgrade_time := try_enum_UnitStat no_delta upgrade_times;
        _is_home_village := home;
        village := if home then "home" else "builderBase";
        training_time := TimeDelta_seconds (dict_get_default json_meta "TrainingTime" JNull);
        ability_time := try_enum_UnitStat is_null ability_times;
        ability_troop_count := try_enum_UnitStat is_null ability_troop_counts;
        required_th_level :=
          try_enum_UnitStat is_null
            (if existsb truthy required_townhall_levels then required_townhall_levels else labs);
        regeneration_time := try_enum_UnitStat no_delta regeneration_times |}.

Section LoadJsonMeta.

(** [PETS_ORDER] of [cr/enums.py] and the parsed [static/buildings.json]:
    neither is among the sources. *)
Variable PETS_ORDER : list string.
Variable buildings : list (string * json).

(** The class [cls] after [cls._load_json_meta(json_meta, id, name,
    lab_to_townhall)]; [cls] starts as a copy of the class named
    [data_object_name].  The bare [return] leaves [loaded_attrs] unset. *)
Definition _load_json_meta (data_object_name : string) (json_meta : list (string * json))
    (id : Z) (name : string) (lab_to_townhall : list (Z * Z)) : result template :=
  let! ranges := level_fields json_meta "AttackRange" JNull in
  let! dpss := level_fields json_meta "DPS" JNull in
  let! hitpointss := level_fields json_meta "Hitpoints" JNull in
  let pb := production_building PETS_ORDER name json_meta in
  let cls (attrs : option derived) :=
    {| class_name := data_object_name;
       id := id;
       name := name;
       lab_to_townhall := lab_to_townhall;
       ground_target := dict_get_default json_meta "GroundTargets" (JBool true);
       range := try_enum_UnitStat is_null ranges;
       dps := try_enum_UnitStat is_null dpss;
       hitpoints := try_enum_UnitStat is_null hitpointss;
       flag := snd pb;
       loaded_attrs := attrs |} in
  let! outcome := laboratory_levels buildings lab_to_townhall json_meta (fst pb) in
  match outcome with
  | NotDerivable => Ok (cls None)
  | LabLevels labs =>
      let! attrs := load_derived json_meta (try_enum_UnitStat is_null dpss) labs in
      Ok (cls (Some attrs))
  end.

End LoadJsonMeta.

(** ** Instances: [DataContainer.__init__], [__eq__], [__hash__] *)

(** A class an instance can be made of: one declared in the code (the holder's
    [data_object] or the caller's default), or one generated by the registry. *)
Inductive pyclass : Type :=
| Declared (cname : string)
| Generated (t : template).

Record instance : Type := {
  cls : pyclass;
  inst_name : json;
  inst_level : json;
  max_level : json;
  inst_village : json;
  is_active : json;
  _townhall : json;
  _DataContainer__name : json;
  _DataContainer__level : json;
  _DataContainer__village : json;
  _DataContainer__is_active : json
}.

(** [data[k]] *)
Definition dict_getitem (data : list (string * json)) (k : string) : result json :=
  match dict_get data k with
  | Some v => Ok v
  | None => Raise KeyError
  end.

(** [item(data=data, townhall=townhall)] *)
Definition __init__ (item : pyclass) (data : list (string * json)) (townhall : json)
  : result instance :=
  let! n := dict_getitem data "name" in
  let! l := dict_getitem data "level" in
  let! m := dict_getitem data "maxLevel" in
  let! v := dict_getitem data "village" in
  let a := dict_get_default data "superTroopIsActive" JNull in
  Ok {| cls := item;
        inst_name := n;
        inst_level := l;
        max_level := m;
        inst_village := v;
        is_active := a;
        _townhall := townhall;
        _DataContainer__name := n;
        _DataContainer__level := l;
        _DataContainer__village := v;
        _DataContainer__is_active := a |}.

(** [a == b] on JSON values: numbers by value ([True == 1]), texts and lists
    element-wise, dicts as maps. *)
Fixpoint py_eq (a b : json) {struct a} : bool :=
  match a, b with
  | JNull, JNull => true
  | JBool x, JBool y => Bool.eqb x y
  | JBool x, JInt n => (if x then 1 else 0) =? n
  | JInt n, JBool y => n =? (if y then 1 else 0)
  | JInt n, JInt m => n =? m
  | JStr s, JStr t => String.eqb s t
  | JList l, JList m =>
      (fix go (l m : list json) {struct l} : bool :=
         match l, m with
         | [], [] => true
         | x :: l', y :: m' => py_eq x y && go l' m'
         | _, _ => false
         end) l m
  | JDict d, JDict e =>
      (List.length d =? List.length e)%nat &&
      (fix go (d : list (string * json)) {struct d} : bool :=
         match d with
         | [] => true
         | kv :: d' =>
             match dict_get e (fst kv) with
             | Some w => py_eq (snd kv) w
             | None => false
             end && go d'
         end) d
  | _, _ => false
  end.

(** [self.__eq__(other)] *)
Definition __eq__ (self other : instance) : bool :=
  py_eq (inst_name self) (inst_name other) &&
  py_eq (inst_level self) (inst_level other) &&
  py_eq (inst_village self) (inst_village other) &&
  py_eq (is_active self) (is_active other).

Section Hash.

(** The interpreter's hash of an integer, of a text, of [None], and the
    combination of the hashes of a tuple's items. *)
Variable hash_int : Z -> Z.
Variable hash_str : string -> Z.
Variable hash_none : Z.
Variable hash_tuple : list Z -> Z.

(** [hash(v)]: a list or a dict is not hashable. *)
Definition py_hash (v : json) : result Z :=
  match v with
  | JNull => Ok hash_none
  | JBool b => Ok (hash_int (if b then 1 else 0))
  | JInt n => Ok (hash_int n)
  | JStr s => Ok (hash_str s)
  | JList _ | JDict _ => Raise TypeError
  end.

(** [hash((self.__name, self.__level, self.__village, self.__is_active))] *)
Definition __hash__ (self : instance) : result Z :=
  let! hs := mapM py_hash [_DataContainer__name self; _DataContainer__level self;
                           _DataContainer__village self; _DataContainer__is_active self] in
  Ok (hash_tuple hs).

End Hash.

(** ** [DataContainerHolder] *)

(** Modelled from the spec: [CaseInsensitiveDict] of [cr/utils.py], which is
    not among the sources.  A mapping on normalized, lower-cased keys where the
    latest assignment to a key wins; a text key that was never assigned
    raises [KeyError].  [ci_setitem] is [m[key] = v] and [ci_getitem] is
    [m[key]]. *)
Definition ci_setitem {V : Type} (key : string) (v : V) (m : gmap string V) : gmap string V :=
  <[lower key := v]> m.

Definition ci_getitem {V : Type} (m : gmap string V) (key : json) : result V :=
  match key with
  | JStr s =>
      match m !! lower s with
      | Some v => Ok v
      | None => Raise KeyError
      end
  | JList _ | JDict _ => Raise TypeError
  | _ => Raise KeyError
  end.

(** A holder as one call sees it: [items] is the list and [data_object] the
    class its subclass declares; [FILE_PATH] is the text
    [str(self.FILE_PATH)]; [item_lookup] is the state of the class-level
    dict, which every holder shares and which [DataContainerHolder.__init__]
    leaves as it is: it sets [loaded] only. *)
Record holder : Type := {
  FILE_PATH : string;
  data_object : string;
  items : list template;
  item_lookup : gmap string template;
  loaded : bool
}.

(** [self.items.append(new_item); self.item_lookup[new_item.name] = new_item] *)
Definition register (new_item : template) (h : holder) : holder :=
  {| FILE_PATH := FILE_PATH h;
     data_object := data_object h;
     items := items h ++ [new_item];
     item_lookup := ci_setitem (name new_item) new_item (item_lookup h);
     loaded := loaded h |}.

Definition set_loaded (h : holder) : holder :=
  {| FILE_PATH := FILE_PATH h;
     data_object := data_object h;
     items := items h;
     item_lookup := item_lookup h;
     loaded := true |}.

Definition IGNORED_PETS : list string := ["Unused"; "PhoenixEgg"].

(** The five [continue] tests of the loop, in order, on an entry whose [meta]
    is a dict. *)
Definition skipped (file_path supercell_name : string) (meta : list (string * json)) : bool :=
  negb (truthy (dict_get_default meta "TID" JNull))
  || contains "Tutorial" supercell_name
  || (truthy (dict_get_default meta "DisableProduction" JNull) && negb (contains "pets" file_path))
  || truthy (dict_get_default meta "Deprecated" JNull)
  || (contains "pets" file_path && str_in supercell_name IGNORED_PETS).

(** [english_aliases[tid]]: a dict from text ids to display names. *)
Definition aliases_getitem (english_aliases : gmap string string) (tid : json) : result string :=
  match tid with
  | JStr s =>
      match english_aliases !! s with
      | Some n => Ok n
      | None => Raise KeyError
      end
  | JList _ | JDict _ => Raise TypeError
  | _ => Raise KeyError
  end.

Section Holder.

Variable PETS_ORDER : list string.
Variable buildings : list (string * json).

(** The body of the loop for an entry that is not skipped: the new class. *)
Definition new_item (h : holder) (meta : list (string * json)) (id : Z)
    (english_aliases : gmap string string) (lab_to_townhall : list (Z * Z)) : result template :=
  let! name := aliases_getitem english_aliases (dict_get_default meta "TID" JNull) in
  _load_json_meta PETS_ORDER buildings (data_object h) meta id name lab_to_townhall.

(** The loop of [_load_json] over [data.items()], from the counter [id] and
    the holder [h]: the holder when the loop ends, and the exception that
    ended it, if one did. *)
Fixpoint load_entries (entries : list (string * json)) (english_aliases : gmap string string)
    (lab_to_townhall : list (Z * Z)) (id : Z) (h : holder) : holder * option exn :=
  match entries with
  | [] => (h, None)
  | (supercell_name, meta) :: rest =>
      match meta with
      | JDict m =>
          if skipped (FILE_PATH h) supercell_name m
          then load_entries rest english_aliases lab_to_townhall id h
          else
            match new_item h m id english_aliases lab_to_townhall with
            | Ok item =>
                load_entries rest english_aliases lab_to_townhall (id + 1) (register item h)
            | Raise e => (h, Some e)
            end
      | _ => (h, Some AttributeError)
      end
  end.

(** [self._load_json(english_aliases, lab_to_townhall)], where [data] is the
    parsed content of [self.FILE_PATH]. *)
Definition _load_json (data : list (string * json)) (english_aliases : gmap string string)
    (lab_to_townhall : list (Z * Z)) (h : holder) : holder * option exn :=
  match load_entries data english_aliases lab_to_townhall 2000 h with
  | (h', None) => (set_loaded h', None)
  | (h', Some e) => (h', Some e)
  end.

End Holder.

(** [self.load(data, townhall, default, load_game_data)] *)
Definition load (h : holder) (data : list (string * json)) (townhall : json)
    (default : option pyclass) (load_game_data : bool) : result instance :=
  let fallback :=
    match default with
    | Some c => c
    | None => Declared (data_object h)
    end in
  let! item :=
    if load_game_data then
      match dict_getitem data "name" with
      | Ok key =>
          match ci_getitem (item_lookup h) key with
          | Ok t => Ok (Generated t)
          | Raise KeyError => Ok fallback
          | Raise e => Raise e
          end
      | Raise _ => Ok fallback
      end
    else Ok fallback in
  __init__ item data townhall.

(** [self.get(name)] for a text [name]: [None] in Rocq is Python's [None]. *)
Definition get (h : holder) (name : string) : option template :=
  match ci_getitem (item_lookup h) (JStr name) with
  | Ok t => Some t
  | Raise _ => None
  end.

(** A holder before any holder has loaded: the shared lookup is still the
    empty dict of the class body.  Once some holder has loaded, a new holder
    starts from the lookup that load left ([filled] below). *)
Definition empty_holder (file_path data_object : string) : holder :=
  {| FILE_PATH := file_path;
     data_object := data_object;
     items := [];
     item_lookup := ∅;
     loaded := false |}.

(** ** Notions the statements use *)

(** The resolution reaches the unlock floor: a building of the barracks family
    with a [BarrackLevel] that is set, or the pet shop. *)
Definition floored_path (pb : json) (json_meta : list (string * json)) : bool :=
  (json_in pb barracks_family && truthy (dict_get_default json_meta "BarrackLevel" JNull))
  || (negb (json_in pb barracks_family) && eq_str pb "Pet Shop").

(** On that path: the level of the production building the unit needs, the
    floor it maps to, and the raw per-level values the loop runs over. *)
Definition min_prod_unit_level (pb : json) (json_meta : list (string * json)) : result json :=
  if json_in pb barracks_family
  then Ok (dict_get_default json_meta "BarrackLevel" JNull)
  else py_get (dict_get_default json_meta "1" JNull) "LaboratoryLevel" JNull.

Definition floor_level (buildings : list (string * json)) (lab_to_townhall : list (Z * Z))
    (pb : json) (json_meta : list (string * json)) : result Z :=
  let! prod_unit := buildings_get buildings pb in
  let! m := min_prod_unit_level pb json_meta in
  unlock_floor prod_unit m lab_to_townhall.

Definition raw_lab_levels (pb : json) (json_meta : list (string * json)) : result (list json) :=
  level_fields json_meta "LaboratoryLevel" (if json_in pb barracks_family then JInt 1 else JNull).

(** Each value of the list is a number no greater than the next one. *)
Fixpoint non_decreasingb (l : list json) : bool :=
  match l with
  | a :: (b :: _) as tl =>
      match int_val a, int_val b with
      | Some x, Some y => (x <=? y) && non_decreasingb tl
      | _, _ => false
      end
  | _ => true
  end.

(** [json_meta] without the key [k]. *)
Definition dict_remove (k : string) (d : list (string * json)) : list (string * json) :=
  List.filter (fun kv => negb (String.eqb (fst kv) k)) d.

(** The production buildings the resolution knows. *)
Definition recognized_buildings : list string := barracks_family ++ ["Pet Shop"].

(** ** Sample data *)

Definition ok_or {A : Type} (d : A) (r : result A) : A :=
  match r with
  | Ok a => a
  | Raise _ => d
  end.

Definition blank_template : template :=
  {| class_name := ""; id := 0; name := ""; lab_to_townhall := [];
     ground_target := JNull; range := None; dps := None; hitpoints := None;
     flag := None; loaded_attrs := None |}.

(** Barracks level 6 needs town hall 9, pet shop level 9 needs town hall 13;
    laboratory 5 comes with town hall 9 and laboratory 7 with town hall 13. *)
Definition ex_buildings : list (string * json) :=
  [("Barrack", JDict [("6", JDict [("TownHallLevel", JInt 9)])]);
   ("Pet Shop", JDict [("9", JDict [("TownHallLevel", JInt 13)])])].

Definition ex_lab_to_townhall : list (Z * Z) := [(4, 8); (5, 9); (7, 13)].

Definition ex_pets_order : list string := ["L.A.S.S.I"; "Electro Owl"].

Definition ex_level (lab : Z) : json :=
  JDict [("LaboratoryLevel", JInt lab); ("DPS", JInt 10)].

(** A troop of the barracks, [BarrackLevel] 6, raw laboratory levels
    3, 4, 4, 5, 5, 5. *)
Definition ex_knight : list (string * json) :=
  [("TID", JStr "TID_KNIGHT"); ("ProductionBuilding", JStr "Barrack"); ("BarrackLevel", JInt 6);
   ("1", ex_level 3); ("2", ex_level 4); ("3", ex_level 4);
   ("4", ex_level 5); ("5", ex_level 5); ("6", ex_level 5)].

Definition ex_knight_template : template :=
  Eval vm_compute in
    ok_or blank_template
      (_load_json_meta ex_pets_order ex_buildings "Troop" ex_knight 2000 "Knight" ex_lab_to_townhall).

(** A troop of the barracks, [BarrackLevel] 6, whose raw laboratory levels go
    down from 9 to 3. *)
Definition ex_ram : list (string * json) :=
  [("TID", JStr "TID_RAM"); ("ProductionBuilding", JStr "Barrack"); ("BarrackLevel", JInt 6);
   ("1", ex_level 9); ("2", ex_level 3)].

Definition ex_ram_template : template :=
  Eval vm_compute in
    ok_or blank_template
      (_load_json_meta ex_pets_order ex_buildings "Troop" ex_ram 2000 "Ram" ex_lab_to_townhall).

(** An entry without [ProductionBuilding] whose raw laboratory levels are 9
    and 3: a pet when it is named after one, a hero otherwise. *)
Definition ex_no_building : list (string * json) :=
  [("TID", JStr "TID_LASSI"); ("1", ex_level 9); ("2", ex_level 3)].

Definition ex_lassi_template : template :=
  Eval vm_compute in
    ok_or blank_template
      (_load_json_meta ex_pets_order ex_buildings "Pet" ex_no_building 2000 "L.A.S.S.I"
         ex_lab_to_townhall).

(** A troop of the builder barracks whose [BarrackLevel] is 0. *)
Definition ex_zero_barrack : list (string * json) :=
  [("TID", JStr "TID_BOXER"); ("ProductionBuilding", JStr "Barrack2"); ("BarrackLevel", JInt 0);
   ("1", ex_level 2); ("2", ex_level 1)].

Definition ex_zero_barrack_template : template :=
  Eval vm_compute in
    ok_or blank_template
      (_load_json_meta ex_pets_order ex_buildings "Troop" ex_zero_barrack 2000 "Boxer Giant"
         ex_lab_to_townhall).

(** A dark troop without [BarrackLevel], with explicit town-hall requirements
    7 and 8 at its two levels. *)
Definition ex_golem : list (string * json) :=
  [("TID", JStr "TID_GOLEM"); ("ProductionBuilding", JStr "Dark Elixir Barrack");
   ("1", JDict [("LaboratoryLevel", JInt 1); ("RequiredTownHallLevel", JInt 7)]);
   ("2", JDict [("LaboratoryLevel", JInt 6); ("RequiredTownHallLevel", JInt 8)])].

Definition ex_golem_template : template :=
  Eval vm_compute in
    ok_or blank_template
      (_load_json_meta ex_pets_order ex_buildings "Troop" ex_golem 2000 "Golem" ex_lab_to_townhall).

(** The town-hall level the floor is looked up for, and the laboratory levels
    the map gives for it. *)
Definition min_th_level (buildings : list (string * json)) (pb : json)
    (json_meta : list (string * json)) : result json :=
  let! prod_unit := buildings_get buildings pb in
  let! m := min_prod_unit_level pb json_meta in
  let! unlock := py_get prod_unit (py_str m) JNull in
  py_get unlock "TownHallLevel" (JInt 0).

Definition reverse_lookup (lab_to_townhall : list (Z * Z)) (th : json) : list Z :=
  List.map fst (List.filter (fun kv => eq_int (snd kv) th) lab_to_townhall).

(** A map in which two laboratory levels come with town hall 9. *)
Definition ex_ambiguous_map : list (Z * Z) := [(5, 9); (6, 9)].

Definition ex_aliases : gmap string string :=
  {[ "TID_KNIGHT" := "Knight"; "TID_LASSI" := "Barbarian King";
     "TID_FOO" := "Foo Fighter"; "TID_GOLEM" := "Golem" ]}.

(** An entry whose production building is none of the known ones. *)
Definition ex_foo : list (string * json) :=
  [("TID", JStr "TID_FOO"); ("ProductionBuilding", JStr "Foo Factory"); ("1", ex_level 1)].

Definition ex_foo_template : template :=
  Eval vm_compute in
    ok_or blank_template
      (_load_json_meta ex_pets_order ex_buildings "Troop" ex_foo 2000 "Foo Fighter"
         ex_lab_to_townhall).

Definition ex_king_template : template :=
  Eval vm_compute in
    ok_or blank_template
      (_load_json_meta ex_pets_order ex_buildings "Troop" ex_no_building 2000 "Barbarian King"
         ex_lab_to_townhall).

(** A deprecated entry. *)
Definition ex_deprecated : list (string * json) :=
  [("TID", JStr "TID_GOLEM"); ("Deprecated", JBool true); ("1", ex_level 1)].

Definition ex_troops : holder := empty_holder "static/troops.json" "Troop".

(** The tuple [(name, level, village, is_active)] of an instance; tuples
    compare item by item, as lists do. *)
Definition key_tuple (x : instance) : json :=
  JList [inst_name x; inst_level x; inst_village x; is_active x].

(** [v] is a text, a number, a truth value or [None]. *)
Definition hashable (v : json) : bool :=
  match v with
  | JList _ | JDict _ => false
  | _ => true
  end.

Definition blank_instance : instance :=
  {| cls := Declared ""; inst_name := JNull; inst_level := JNull; max_level := JNull;
     inst_village := JNull; is_active := JNull; _townhall := JNull;
     _DataContainer__name := JNull; _DataContainer__level := JNull;
     _DataContainer__village := JNull; _DataContainer__is_active := JNull |}.

(** A knight of level 9, as a player reports it. *)
Definition ex_knight_data : list (string * json) :=
  [("name", JStr "Knight"); ("level", JInt 9); ("maxLevel", JInt 14);
   ("village", JStr "home"); ("superTroopIsActive", JBool false)].

Definition ex_knight_unit : instance :=
  Eval vm_compute in
    ok_or blank_instance (__init__ (Generated ex_knight_template) ex_knight_data (JInt 12)).

Definition ex_knight_unit' : instance :=
  Eval vm_compute in
    ok_or blank_instance (__init__ (Declared "Troop") ex_knight_data (JInt 9)).

(** A unit the registry has no template for. *)
Definition ex_mystery_data : list (string * json) :=
  [("name", JStr "Mystery"); ("level", JInt 3); ("maxLevel", JInt 10); ("village", JStr "home")].

(** A holder with the knight loaded. *)
Definition ex_loaded_troops : holder :=
  Eval vm_compute in
    fst (_load_json ex_pets_order ex_buildings [("Knight", JDict ex_knight)]
           ex_aliases ex_lab_to_townhall ex_troops).

(** ** The other members of [DataContainer] *)

(** [self.is_max] *)
Definition is_max (self : instance) : bool :=
  py_eq (max_level self) (inst_level self).

(** [self.is_builder_base] *)
Definition is_builder_base (self : instance) : bool :=
  py_eq (inst_village self) (JStr "builderBase").

(** [self.is_home_base] *)
Definition is_home_base (self : instance) : bool :=
  py_eq (inst_village self) (JStr "home").

(** [self._to_dict()] *)
Definition _to_dict (self : instance) : list (string * json) :=
  [("name", inst_name self);
   ("level", inst_level self);
   ("maxLevel", max_level self);
   ("village", inst_village self);
   ("is_active", is_active self)].

(** [self._load_from_parent(parent)]: the attributes of [self.__class__]
    after the loop of [setattr] over [parent.__dict__.items()]. *)
Definition _load_from_parent {V : Type} (class_dict : gmap string V)
    (parent_dict : list (string * V)) : gmap string V :=
  fold_left
    (fun acc kv => if contains "__" (fst kv) then acc else <[fst kv := snd kv]> acc)
    parent_dict class_dict.

(** ** [BasePlayer] *)

(** [s.lstrip(c)], [s.rstrip(c)] and [s.strip(c)] for one character [c]. *)
Fixpoint lstrip (c : ascii) (s : string) : string :=
  match s with
  | EmptyString => EmptyString
  | String a s' => if Ascii.eqb a c then lstrip c s' else s
  end.

Fixpoint rstrip (c : ascii) (s : string) : string :=
  match s with
  | EmptyString => EmptyString
  | String a s' =>
      match rstrip c s' with
      | EmptyString => if Ascii.eqb a c then EmptyString else String a EmptyString
      | r => String a r
      end
  end.

Definition strip (c : ascii) (s : string) : string := rstrip c (lstrip c s).

Module BasePlayer.

(** A client is seen through its [raw_attribute] only; [None] in Rocq is
    Python's [None], for the client and for [_raw_data]. *)
Record t : Type := {
  tag : json;
  name : json;
  _client : option json;
  _response_retry : json;
  _raw_data : option (list (string * json))
}.

(** [BasePlayer(data=data, client=client)] *)
Definition __init__ (data : list (string * json)) (client : option json) : t :=
  {| _client := client;
     _response_retry := dict_get_default data "_response_retry" JNull;
     _raw_data :=
       match client with
       | Some raw_attribute => if truthy raw_attribute then Some data else None
       | None => None
       end;
     tag := dict_get_default data "tag" JNull;
     name := dict_get_default data "name" JNull |}.

(** [self == other]; [other] is [None] in Rocq when it is no [BasePlayer]. *)
Definition __eq__ (self : t) (other : option t) : bool :=
  match other with
  | Some p => py_eq (tag self) (tag p)
  | None => false
  end.

(** [self.share_link]: only a text has [strip]. *)
Definition share_link (self : t) : result string :=
  match tag self with
  | JStr s => Ok ("https://link.clashroyale.com/?playerInfo?id=" +:+ strip "#" s)
  | _ => Raise AttributeError
  end.

End BasePlayer.

(** ** More notions the statements use *)

(** The entries of the data that are dicts and pass the five tests. *)
Definition kept_entries (file_path : string) (data : list (string * json))
  : list (list (string * json)) :=
  flat_map
    (fun kv =>
       match snd kv with
       | JDict m => if skipped file_path (fst kv) m then [] else [m]
       | _ => []
       end)
    data.

Definition is_dict (v : json) : bool :=
  match v with
  | JDict _ => true
  | _ => false
  end.

(** The last character of a text, if it has one. *)
Fixpoint last_char (s : string) : option ascii :=
  match s with
  | EmptyString => None
  | String a EmptyString => Some a
  | String _ s' => last_char s'
  end.

Definition first_char (s : string) : option ascii :=
  match s with
  | EmptyString => None
  | String a _ => Some a
  end.

(** A text of [n] characters [c]. *)
Fixpoint repeat_char (c : ascii) (n : nat) : string :=
  match n with
  | O => EmptyString
  | S n' => String c (repeat_char c n')
  end.

(** A knight reported under another letter case. *)
Definition ex_knight_data_upper : list (string * json) :=
  [("name", JStr "KNIGHT"); ("level", JInt 9); ("maxLevel", JInt 14);
   ("village", JStr "home"); ("superTroopIsActive", JBool false)].

(** A unit reported without its level. *)
Definition ex_no_level_data : list (string * json) :=
  [("name", JStr "Knight"); ("maxLevel", JInt 14); ("village", JStr "home")].

(** An entry with a level block that is a number. *)
Definition ex_bad_block : list (string * json) :=
  [("TID", JStr "TID_KNIGHT"); ("1", ex_level 1); ("2", JInt 7)].

(** A troop of the builder barracks, which the sample unlock table lacks. *)
Definition ex_builder_troop : list (string * json) :=
  [("TID", JStr "TID_KNIGHT"); ("ProductionBuilding", JStr "Barrack2"); ("BarrackLevel", JInt 2);
   ("1", ex_level 1)].

(** An entry whose [ProductionBuilding] is the empty text. *)
Definition ex_empty_building : list (string * json) :=
  [("TID", JStr "TID_LASSI"); ("ProductionBuilding", JStr ""); ("1", ex_level 9);
   ("2", ex_level 3)].

Definition blank_attrs : derived :=
  {| lab_level := None; housing_space := JNull; speed := None; level := None;
     upgrade_cost := None; upgrade_resource := {| value := JNull |}; upgrade_time := None;
     _is_home_village := true; village := ""; training_time := TimeDelta_seconds JNull;
     ability_time := None; ability_troop_count := None; required_th_level := None;
     regeneration_time := None |}.

(** The attributes of a sample template that loaded. *)
Definition ok_or_attrs (t : template) : derived :=
  match loaded_attrs t with
  | Some attrs => attrs
  | None => blank_attrs
  end.

(** A pet whose second level has no [LaboratoryLevel]. *)
Definition ex_pet_gap : list (string * json) :=
  [("TID", JStr "TID_LASSI"); ("1", ex_level 9); ("2", JDict [("DPS", JInt 12)])].

(** ** The per-level values and the shared lookup *)

(** The value of [field] in the block of level [lv], as
    [json_meta.get(lv).get(field, default)] gives it when the block is a
    dict. *)
Definition level_value (json_meta : list (string * json)) (field : string) (default : json)
    (lv : string) : json :=
  match dict_get_default json_meta lv JNull with
  | JDict block => dict_get_default block field default
  | _ => JNull
  end.

(** The values of [field], one per level key, in the order of the keys. *)
Definition level_values (json_meta : list (string * json)) (field : string) (default : json)
  : list json :=
  List.map (level_value json_meta field default) (levels_available json_meta).

(** Every level key holds a dict. *)
Definition all_blocks_dicts (json_meta : list (string * json)) : bool :=
  forallb (fun lv => is_dict (dict_get_default json_meta lv JNull)) (levels_available json_meta).

(** The states of the class-level lookup: the empty dict of the class body,
    and what [self.item_lookup[new_item.name] = new_item], the only
    assignment to it, makes of a state, whichever holder runs it. *)
Inductive filled : gmap string template -> Prop :=
| filled_empty : filled ∅
| filled_register (t : template) (m : gmap string template) :
    filled m -> filled (ci_setitem (name t) t m).

(** A dark troop without [BarrackLevel] whose two levels give 0 as the
    required town hall. *)
Definition ex_zero_th : list (string * json) :=
  [("TID", JStr "TID_GOLEM"); ("ProductionBuilding", JStr "Dark Elixir Barrack");
   ("1", JDict [("LaboratoryLevel", JInt 5); ("RequiredTownHallLevel", JInt 0)]);
   ("2", JDict [("LaboratoryLevel", JInt 6); ("RequiredTownHallLevel", JInt 0)])].

Definition ex_zero_th_template : template :=
  Eval vm_compute in
    ok_or blank_template
      (_load_json_meta ex_pets_order ex_buildings "Troop" ex_zero_th 2000 "Golem"
         ex_lab_to_townhall).

(** A new holder for the spells file, made after the troops holder has
    registered the knight: its collection is empty, the lookup is the shared
    one. *)
Definition ex_spells : holder :=
  {| FILE_PATH := "static/spells.json";
     data_object := "Spell";
     items := [];
     item_lookup := item_lookup (register ex_knight_template ex_troops);
     loaded := false |}.

(** Two entries whose aliases differ in letter case only. *)
Definition ex_twice : list (string * json) :=
  [("Golem", JDict ex_golem); ("GolemAgain", JDict ex_no_building)].

Definition ex_twice_aliases : gmap string string :=
  {[ "TID_GOLEM" := "Golem"; "TID_LASSI" := "GOLEM" ]}.

Definition ex_twice_more : list template :=
  Eval vm_compute in
    items (fst (_load_json ex_pets_order ex_buildings ex_twice ex_twice_aliases
                  ex_lab_to_townhall ex_spells)).

(** * Properties *)

(** ** List comprehensions that may raise *)

Lemma mapM_length {A B : Type} (f : A -> result B) (xs : list A) (ys : list B) :
  mapM f xs = Ok ys -> List.length ys = List.length xs.
Proof.
  revert ys; induction xs as [|x xs IH]; intros ys H; simpl in H.
  - injection H as <-. reflexivity.
  - destruct (f x) as [y|e]; simpl in H; [|discriminate].
    destruct (mapM f xs) as [ys'|e]; simpl in H; [|discriminate].
    injection H as <-. simpl. f_equal. apply IH. reflexivity.
Qed.

Lemma mapM_nth {A B : Type} (f : A -> result B) (xs : list A) (ys : list B) (i : nat) (x : A) :
  mapM f xs = Ok ys -> nth_error xs i = Some x ->
  exists y, nth_error ys i = Some y /\ f x = Ok y.
Proof.
  revert ys i; induction xs as [|x0 xs IH]; intros ys i H Hx.
  - destruct i; discriminate.
  - simpl in H. destruct (f x0) as [y0|e] eqn:E0; simpl in H; [|discriminate].
    destruct (mapM f xs) as [ys'|e] eqn:E; simpl in H; [|discriminate].
    injection H as <-. destruct i as [|i]; simpl in *.
    + injection Hx as <-. exists y0. split; [reflexivity | exact E0].
    + apply (IH ys' i); [reflexivity | exact Hx].
Qed.

Lemma mapM_ext_in {A B : Type} (f g : A -> result B) (xs : list A) :
  (forall x, In x xs -> f x = g x) -> mapM f xs = mapM g xs.
Proof.
  induction xs as [|x xs IH]; intros H; simpl; [reflexivity|].
  rewrite (H x) by (left; reflexivity).
  rewrite IH by (intros y Hy; apply H; right; exact Hy).
  reflexivity.
Qed.

(** A comprehension over the level blocks succeeds for one field exactly when
    it does for any other: only [json_meta.get(level)] can fail. *)
Lemma level_field_ok (json_meta : list (string * json)) (f g : string) (d e : json)
    (lv : string) (v : json) :
  level_field json_meta f d lv = Ok v -> exists w, level_field json_meta g e lv = Ok w.
Proof.
  unfold level_field, py_get. destruct (dict_get_default json_meta lv JNull); try discriminate.
  intros _. eexists. reflexivity.
Qed.

Lemma mapM_ok_transfer {A B C : Type} (f : A -> result B) (g : A -> result C) (xs : list A) (ys : list B) :
  (forall x y, f x = Ok y -> exists z, g x = Ok z) ->
  mapM f xs = Ok ys -> exists zs, mapM g xs = Ok zs.
Proof.
  intros Hfg. revert ys; induction xs as [|x xs IH]; intros ys H; simpl in *.
  - eexists. reflexivity.
  - destruct (f x) as [y|e] eqn:E; simpl in H; [|discriminate].
    destruct (mapM f xs) as [ys'|e]; simpl in H; [|discriminate].
    destruct (Hfg _ _ E) as [z ->]. destruct (IH ys' eq_refl) as [zs ->].
    simpl. eexists. reflexivity.
Qed.

Lemma level_fields_ok (json_meta : list (string * json)) (f g : string) (d e : json) (vs : list json) :
  level_fields json_meta f d = Ok vs -> exists ws, level_fields json_meta g e = Ok ws.
Proof.
  unfold level_fields. apply mapM_ok_transfer.
  intros x y. apply level_field_ok.
Qed.

Lemma level_deltas_ok (json_meta : list (string * json)) (f g : string) (d : json)
    (mk : json -> TimeDelta) (vs : list json) :
  level_fields json_meta f d = Ok vs -> exists ws, level_deltas json_meta g mk = Ok ws.
Proof.
  intros H. unfold level_deltas.
  destruct (level_fields_ok _ _ g _ JNull _ H) as [ws ->]. simpl. eexists. reflexivity.
Qed.

(** Once the level blocks are known to be dicts, the attributes after the
    laboratory levels are assigned without an exception. *)
Lemma load_derived_ok (json_meta : list (string * json)) (f : string) (d : json) (vs : list json)
    (dps : option (UnitStat json)) (labs : list json) :
  level_fields json_meta f d = Ok vs ->
  exists attrs, load_derived json_meta dps labs = Ok attrs
    /\ lab_level attrs = try_enum_UnitStat is_null labs
    /\ exists req, level_fields json_meta "RequiredTownHallLevel" JNull = Ok req
         /\ required_th_level attrs =
              try_enum_UnitStat is_null (if existsb truthy req then req else labs).
Proof.
  intros H. unfold load_derived.
  destruct (level_fields_ok _ _ "Speed" _ JNull _ H) as [? ->].
  destruct (level_fields_ok _ _ "UpgradeCost" _ JNull _ H) as [? ->].
  destruct (level_deltas_ok _ _ "UpgradeTimeH" _ TimeDelta_hours _ H) as [? ->].
  destruct (level_fields_ok _ _ "AbilityTime" _ JNull _ H) as [? ->].
  destruct (level_fields_ok _ _ "AbilitySummonTroopCount" _ JNull _ H) as [? ->].
  destruct (level_fields_ok _ _ "RequiredTownHallLevel" _ JNull _ H) as [req ->].
  destruct (level_deltas_ok _ _ "RegenerationTimeMinutes" _ TimeDelta_minutes _ H) as [? ->].
  simpl. eexists. split; [reflexivity|]. split; [reflexivity|].
  exists req. split; reflexivity.
Qed.

(** ** What [_load_json_meta] leaves on the class *)

Lemma _load_json_meta_inv (PETS_ORDER : list string) (buildings : list (string * json))
    (cname : string) (json_meta : list (string * json)) (i : Z) (nm : string)
    (l2t : list (Z * Z)) (t : template) :
  _load_json_meta PETS_ORDER buildings cname json_meta i nm l2t = Ok t ->
  exists outcome,
    laboratory_levels buildings l2t json_meta (fst (production_building PETS_ORDER nm json_meta))
      = Ok outcome
    /\ name t = nm /\ id t = i
    /\ flag t = snd (production_building PETS_ORDER nm json_meta)
    /\ match outcome with
       | NotDerivable => loaded_attrs t = None
       | LabLevels labs =>
           exists attrs, loaded_attrs t = Some attrs
                         /\ load_derived json_meta (dps t) labs = Ok attrs
       end.
Proof.
  unfold _load_json_meta. intros H.
  destruct (level_fields json_meta "AttackRange" JNull) as [rs|e]; simpl in H; [|discriminate].
  destruct (level_fields json_meta "DPS" JNull) as [ds|e]; simpl in H; [|discriminate].
  destruct (level_fields json_meta "Hitpoints" JNull) as [hs|e]; simpl in H; [|discriminate].
  destruct (laboratory_levels _ _ _ _) as [outcome|e]; simpl in H; [|discriminate].
  exists outcome. split; [reflexivity|].
  destruct outcome as [labs|].
  - destruct (load_derived _ _ _) as [attrs|e] eqn:E; simpl in H; [|discriminate].
    injection H as <-. simpl. repeat split; try reflexivity.
    exists attrs. split; [reflexivity | exact E].
  - injection H as <-. simpl. repeat split; reflexivity.
Qed.

Lemma _load_json_meta_ok (PETS_ORDER : list string) (buildings : list (string * json))
    (cname : string) (json_meta : list (string * json)) (i : Z) (nm : string)
    (l2t : list (Z * Z)) (f : string) (d : json) (vs : list json) (outcome : lab_outcome) :
  level_fields json_meta f d = Ok vs ->
  laboratory_levels buildings l2t json_meta (fst (production_building PETS_ORDER nm json_meta))
    = Ok outcome ->
  exists t, _load_json_meta PETS_ORDER buildings cname json_meta i nm l2t = Ok t.
Proof.
  intros H L. unfold _load_json_meta.
  destruct (level_fields_ok _ _ "AttackRange" _ JNull _ H) as [? ->].
  destruct (level_fields_ok _ _ "DPS" _ JNull _ H) as [ds ->].
  destruct (level_fields_ok _ _ "Hitpoints" _ JNull _ H) as [? ->].
  simpl. rewrite L. simpl. destruct outcome as [labs|].
  - destruct (load_derived_ok json_meta f d vs (try_enum_UnitStat is_null ds) labs H)
      as (attrs & -> & _).
    simpl. eexists. reflexivity.
  - eexists. reflexivity.
Qed.

(** ** The unlock floor *)

Lemma json_in_is_str (pb : json) (xs : list string) :
  json_in pb xs = true -> exists s, pb = JStr s /\ str_in s xs = true.
Proof.
  unfold json_in, str_in. destruct pb; simpl; intros H;
    try (exfalso; induction xs; simpl in H; congruence).
  exists s. split; [reflexivity|].
  induction xs as [|x xs IH]; simpl in *; [discriminate|].
  apply orb_true_iff in H as [H|H].
  - rewrite H. reflexivity.
  - rewrite (IH H). apply orb_true_r.
Qed.

Lemma json_in_truthy (pb : json) : json_in pb barracks_family = true -> truthy pb = true.
Proof.
  destruct pb; simpl; try discriminate. unfold json_in. simpl.
  destruct (String.eqb_spec s ""); [subst; simpl; discriminate | reflexivity].
Qed.

Lemma eq_str_truthy (pb : json) : eq_str pb "Pet Shop" = true -> truthy pb = true.
Proof.
  destruct pb; simpl; try discriminate.
  intros H. apply String.eqb_eq in H. subst. reflexivity.
Qed.

(** On the floored path the branch computes the floor, reads the raw values
    and floors each of them. *)
Lemma laboratory_levels_floored (buildings : list (string * json)) (l2t : list (Z * Z))
    (json_meta : list (string * json)) (pb : json) :
  floored_path pb json_meta = true ->
  laboratory_levels buildings l2t json_meta pb =
    (let! first := floor_level buildings l2t pb json_meta in
     let! raw := raw_lab_levels pb json_meta in
     let! levels := floor_levels raw first in
     Ok (LabLevels levels)).
Proof.
  unfold floored_path, laboratory_levels, floor_level, raw_lab_levels, min_prod_unit_level.
  intros H. apply orb_true_iff in H as [H|H]; apply andb_true_iff in H as [H1 H2].
  - rewrite (json_in_truthy _ H1), H1, H2. simpl.
    destruct (buildings_get buildings pb); reflexivity.
  - apply negb_true_iff in H1. rewrite (eq_str_truthy _ H2), H1, H2. simpl.
    destruct (buildings_get buildings pb); simpl; [|reflexivity].
    destruct (py_get _ _ _); reflexivity.
Qed.

Lemma py_max_floor (r : json) (first : Z) (v : json) :
  py_max r first = Ok v -> exists n, int_val v = Some n /\ first <= n.
Proof.
  unfold py_max. destruct (int_val r) as [m|] eqn:E; [|discriminate].
  intros H. injection H as <-. destruct (Z.ltb_spec m first).
  - exists first. split; [reflexivity | lia].
  - exists m. split; [exact E | lia].
Qed.

Lemma py_max_value (r : json) (first : Z) (v : json) :
  py_max r first = Ok v ->
  exists m, int_val r = Some m /\ int_val v = Some (Z.max m first).
Proof.
  unfold py_max. destruct (int_val r) as [m|] eqn:E; [|discriminate].
  intros H. injection H as <-. exists m. split; [reflexivity|].
  destruct (Z.ltb_spec m first).
  - simpl. f_equal. lia.
  - rewrite E. f_equal. lia.
Qed.

Lemma floor_levels_non_decreasing (raw : list json) (first : Z) (labs : list json) :
  floor_levels raw first = Ok labs -> non_decreasingb raw = true -> non_decreasingb labs = true.
Proof.
  unfold floor_levels. revert labs.
  induction raw as [|a raw IH]; intros labs H Hnd; simpl in H.
  - injection H as <-. reflexivity.
  - destruct (py_max a first) as [a'|e] eqn:Ea; simpl in H; [|discriminate].
    destruct (mapM _ raw) as [labs'|e] eqn:E; simpl in H; [|discriminate].
    injection H as <-.
    destruct raw as [|b raw'].
    + simpl in E. injection E as <-. reflexivity.
    + simpl in E. destruct (py_max b first) as [b'|e] eqn:Eb; simpl in E; [|discriminate].
      destruct (mapM _ raw') as [labs''|e] eqn:E'; simpl in E; [|discriminate].
      injection E as <-.
      destruct (py_max_value _ _ _ Ea) as (x & Hx & Hx').
      destruct (py_max_value _ _ _ Eb) as (y & Hy & Hy').
      change (non_decreasingb (a :: b :: raw')) with
        (match int_val a, int_val b with
         | Some x, Some y => (x <=? y) && non_decreasingb (b :: raw')
         | _, _ => false
         end) in Hnd.
      rewrite Hx, Hy in Hnd. apply andb_true_iff in Hnd as [Hle Hnd].
      change (non_decreasingb (a' :: b' :: labs'')) with
        (match int_val a', int_val b' with
         | Some x, Some y => (x <=? y) && non_decreasingb (b' :: labs'')
         | _, _ => false
         end).
      rewrite Hx', Hy'. apply andb_true_iff. split.
      * apply Z.leb_le. apply Z.leb_le in Hle. lia.
      * apply IH; [reflexivity | exact Hnd].
Qed.

Lemma stat_at_nth {A : Type} (s : UnitStat A) (i : nat) :
  (i < List.length (all_levels s))%nat ->
  stat_at s (Z.of_nat i + 1) = nth_error (all_levels s) i.
Proof.
  intros H. unfold stat_at.
  replace (Z.to_nat (Z.of_nat i + 1 - 1)) with i by lia.
  destruct (Z.leb_spec 1 (Z.of_nat i + 1)); [|lia].
  destruct (Z.leb_spec (Z.of_nat i + 1) (Z.of_nat (List.length (all_levels s)))); [|lia].
  reflexivity.
Qed.

Lemma try_enum_defined (labs : list json) (i : nat) (v : json) :
  nth_error labs i = Some v -> is_null v = false ->
  try_enum_UnitStat is_null labs = Some {| all_levels := labs |}.
Proof.
  intros Hn Hv. unfold try_enum_UnitStat.
  destruct (forallb is_null labs) eqn:E; [|reflexivity].
  rewrite forallb_forall in E. apply nth_error_In in Hn.
  rewrite (E _ Hn) in Hv. discriminate.
Qed.

(** C1, as amended.  For a template built on the floored path (barracks
    family with a [BarrackLevel] that is set, or pet shop), with unlock floor
    [first] and raw per-level values [raw]: every level of the source has a
    raw value; at each level [i] the laboratory-level series is defined and
    holds [max(raw[i], first)], a number that is at least [first]; and the
    series is non-decreasing whenever the raw values are. *)
Theorem lab_level_at_least_floor (PETS_ORDER : list string) (buildings : list (string * json))
    (cname : string) (json_meta : list (string * json)) (i : Z) (nm : string)
    (l2t : list (Z * Z)) (t : template) :
  _load_json_meta PETS_ORDER buildings cname json_meta i nm l2t = Ok t ->
  floored_path (fst (production_building PETS_ORDER nm json_meta)) json_meta = true ->
  exists first raw attrs,
    floor_level buildings l2t (fst (production_building PETS_ORDER nm json_meta)) json_meta
      = Ok first
    /\ raw_lab_levels (fst (production_building PETS_ORDER nm json_meta)) json_meta = Ok raw
    /\ List.length raw = List.length (levels_available json_meta)
    /\ loaded_attrs t = Some attrs
    /\ (forall (k : nat) (r : json), nth_error raw k = Some r ->
          exists series v n,
            lab_level attrs = Some series
            /\ stat_at series (Z.of_nat k + 1) = Some v
            /\ py_max r first = Ok v
            /\ int_val v = Some n /\ first <= n)
    /\ (non_decreasingb raw = true ->
          forall series, lab_level attrs = Some series ->
                         non_decreasingb (all_levels series) = true).
Proof.
  intros H Hpath.
  destruct (_load_json_meta_inv _ _ _ _ _ _ _ _ H) as (outcome & L & _ & _ & _ & Hout).
  rewrite (laboratory_levels_floored _ _ _ _ Hpath) in L.
  destruct (floor_level _ _ _ _) as [first|e]; simpl in L; [|discriminate].
  destruct (raw_lab_levels _ _) as [raw|e] eqn:Eraw; simpl in L; [|discriminate].
  destruct (floor_levels raw first) as [labs|e] eqn:Elabs; simpl in L; [|discriminate].
  injection L as <-. destruct Hout as (attrs & Hattrs & Hder).
  assert (Hlab : lab_level attrs = try_enum_UnitStat is_null labs).
  { destruct (load_derived_ok json_meta _ _ _ (dps t) labs Eraw) as (attrs' & E & Hl & _).
    rewrite Hder in E. injection E as <-. exact Hl. }
  exists first, raw, attrs. repeat split; try assumption.
  - unfold raw_lab_levels, level_fields in Eraw. apply (mapM_length _ _ _ Eraw).
  - intros k r Hk. unfold floor_levels in Elabs.
    destruct (mapM_nth _ _ _ _ _ Elabs Hk) as (v & Hv & Hmax).
    destruct (py_max_floor _ _ _ Hmax) as (n & Hn & Hle).
    assert (Hnull : is_null v = false) by (destruct v; try reflexivity; discriminate).
    exists {| all_levels := labs |}, v, n. repeat split; try assumption.
    + rewrite Hlab. apply (try_enum_defined _ _ _ Hv Hnull).
    + rewrite stat_at_nth; [exact Hv|]. simpl.
      apply nth_error_Some. rewrite Hv. discriminate.
  - intros Hnd series Hs. rewrite Hlab in Hs. unfold try_enum_UnitStat in Hs.
    destruct (forallb is_null labs); [discriminate|]. injection Hs as <-. simpl.
    apply (floor_levels_non_decreasing _ _ _ Elabs Hnd).
Qed.

Lemma lab_level_at_least_floor_witness :
  exists first raw attrs,
    floor_level ex_buildings ex_lab_to_townhall
      (fst (production_building ex_pets_order "Knight" ex_knight)) ex_knight = Ok first
    /\ raw_lab_levels (fst (production_building ex_pets_order "Knight" ex_knight)) ex_knight = Ok raw
    /\ List.length raw = List.length (levels_available ex_knight)
    /\ loaded_attrs ex_knight_template = Some attrs
    /\ (forall (k : nat) (r : json), nth_error raw k = Some r ->
          exists series v n,
            lab_level attrs = Some series
            /\ stat_at series (Z.of_nat k + 1) = Some v
            /\ py_max r first = Ok v
            /\ int_val v = Some n /\ first <= n)
    /\ (non_decreasingb raw = true ->
          forall series, lab_level attrs = Some series ->
                         non_decreasingb (all_levels series) = true).
Proof.
  apply (lab_level_at_least_floor ex_pets_order ex_buildings "Troop" ex_knight 2000 "Knight"
           ex_lab_to_townhall ex_knight_template); vm_compute; reflexivity.
Defined.

(** C1 as stated fails: a template built on the barracks path with floor 5
    whose laboratory-level series is 9 at level 1 and 5 at level 2. *)
Lemma lab_level_not_monotone :
  exists attrs series,
    _load_json_meta ex_pets_order ex_buildings "Troop" ex_ram 2000 "Ram" ex_lab_to_townhall
      = Ok ex_ram_template
    /\ floored_path (fst (production_building ex_pets_order "Ram" ex_ram)) ex_ram = true
    /\ floor_level ex_buildings ex_lab_to_townhall
         (fst (production_building ex_pets_order "Ram" ex_ram)) ex_ram = Ok 5
    /\ loaded_attrs ex_ram_template = Some attrs
    /\ lab_level attrs = Some series
    /\ stat_at series 1 = Some (JInt 9)
    /\ stat_at series 2 = Some (JInt 5)
    /\ non_decreasingb (all_levels series) = false.
Proof.
  eexists. eexists. vm_compute. repeat split; reflexivity.
Qed.

(** ** Entries without a production building *)

Lemma production_building_absent (PETS_ORDER : list string) (nm : string)
    (json_meta : list (string * json)) :
  dict_get json_meta "ProductionBuilding" = None ->
  str_in nm PETS_ORDER = false ->
  production_building PETS_ORDER nm json_meta = (JNull, None).
Proof.
  intros H Hp. unfold production_building, dict_get_default. rewrite H. simpl.
  rewrite Hp. reflexivity.
Qed.

(** C4, as amended.  For an entry with no production building whose name is
    not in the pets name list: the load succeeds as soon as the level blocks
    can be read, no category flag is set, the laboratory-level series is made
    of the per-level [LaboratoryLevel] values as they are, and neither the
    unlock table nor the laboratory-to-town-hall map plays a part. *)
Theorem hero_lab_level_verbatim (PETS_ORDER : list string) (buildings : list (string * json))
    (cname : string) (json_meta : list (string * json)) (i : Z) (nm : string)
    (l2t : list (Z * Z)) (raw : list json) :
  dict_get json_meta "ProductionBuilding" = None ->
  str_in nm PETS_ORDER = false ->
  level_fields json_meta "LaboratoryLevel" JNull = Ok raw ->
  exists t attrs,
    _load_json_meta PETS_ORDER buildings cname json_meta i nm l2t = Ok t
    /\ flag t = None
    /\ loaded_attrs t = Some attrs
    /\ lab_level attrs = try_enum_UnitStat is_null raw
    /\ forall buildings' l2t',
         laboratory_levels buildings' l2t' json_meta
           (fst (production_building PETS_ORDER nm json_meta)) = Ok (LabLevels raw).
Proof.
  intros Hpb Hpet Hraw.
  assert (L : forall b' l', laboratory_levels b' l' json_meta
                (fst (production_building PETS_ORDER nm json_meta)) = Ok (LabLevels raw)).
  { intros b' l'. rewrite (production_building_absent _ _ _ Hpb Hpet).
    unfold laboratory_levels. simpl. rewrite Hraw. reflexivity. }
  destruct (_load_json_meta_ok PETS_ORDER buildings cname json_meta i nm l2t _ _ _ _
              Hraw (L buildings l2t)) as [t Ht].
  destruct (_load_json_meta_inv _ _ _ _ _ _ _ _ Ht) as (outcome & L' & _ & _ & Hflag & Hout).
  rewrite L in L'. injection L' as <-. destruct Hout as (attrs & Hattrs & Hder).
  destruct (load_derived_ok json_meta _ _ _ (dps t) raw Hraw) as (attrs' & E & Hl & _).
  rewrite Hder in E. injection E as <-.
  exists t, attrs. repeat split; try assumption.
  rewrite Hflag, (production_building_absent _ _ _ Hpb Hpet). reflexivity.
Qed.

Lemma hero_lab_level_verbatim_witness :
  exists t attrs,
    _load_json_meta ex_pets_order ex_buildings "Hero" ex_no_building 2000 "Barbarian King"
      ex_lab_to_townhall = Ok t
    /\ flag t = None
    /\ loaded_attrs t = Some attrs
    /\ lab_level attrs = try_enum_UnitStat is_null [JInt 9; JInt 3]
    /\ forall buildings' l2t',
         laboratory_levels buildings' l2t' ex_no_building
           (fst (production_building ex_pets_order "Barbarian King" ex_no_building))
         = Ok (LabLevels [JInt 9; JInt 3]).
Proof.
  apply (hero_lab_level_verbatim ex_pets_order ex_buildings "Hero" ex_no_building 2000
           "Barbarian King" ex_lab_to_townhall [JInt 9; JInt 3]); vm_compute; reflexivity.
Defined.

(** C4 as stated fails: an entry with no production building, named after a
    pet, goes through the pet shop; its raw values 9 and 3 become 9 and 7. *)
Lemma pet_without_building_is_floored :
  exists attrs,
    dict_get ex_no_building "ProductionBuilding" = None
    /\ level_fields ex_no_building "LaboratoryLevel" JNull = Ok [JInt 9; JInt 3]
    /\ _load_json_meta ex_pets_order ex_buildings "Pet" ex_no_building 2000 "L.A.S.S.I"
         ex_lab_to_townhall = Ok ex_lassi_template
    /\ loaded_attrs ex_lassi_template = Some attrs
    /\ lab_level attrs = Some {| all_levels := [JInt 9; JInt 7] |}
    /\ lab_level attrs <> try_enum_UnitStat is_null [JInt 9; JInt 3].
Proof.
  eexists. vm_compute. repeat split; try reflexivity. discriminate.
Qed.

(** ** A [BarrackLevel] that is not set *)

Lemma dict_get_remove_ne (k k' : string) (d : list (string * json)) :
  k' <> k -> dict_get (dict_remove k d) k' = dict_get d k'.
Proof.
  intros Hne. induction d as [|[k0 v] d IH]; simpl; [reflexivity|].
  destruct (String.eqb_spec k0 k) as [->|Hk]; simpl.
  - destruct (String.eqb_spec k k'); [congruence | exact IH].
  - destruct (String.eqb_spec k0 k'); [reflexivity | exact IH].
Qed.

Lemma dict_get_default_remove_ne (k k' : string) (d : list (string * json)) (dflt : json) :
  k' <> k -> dict_get_default (dict_remove k d) k' dflt = dict_get_default d k' dflt.
Proof.
  intros Hne. unfold dict_get_default. rewrite dict_get_remove_ne by exact Hne. reflexivity.
Qed.

Lemma dict_get_remove_eq (k : string) (d : list (string * json)) :
  dict_get (dict_remove k d) k = None.
Proof.
  induction d as [|[k0 v] d IH]; simpl; [reflexivity|].
  destruct (String.eqb_spec k0 k) as [->|Hk]; simpl; [exact IH|].
  destruct (String.eqb_spec k0 k); [congruence | exact IH].
Qed.

Lemma levels_available_remove (k : string) (d : list (string * json)) :
  isnumeric k = false -> levels_available (dict_remove k d) = levels_available d.
Proof.
  intros Hk. unfold levels_available, dict_remove.
  induction d as [|[k0 v] d IH]; simpl; [reflexivity|].
  destruct (String.eqb_spec k0 k) as [->|Hne]; simpl.
  - rewrite Hk. exact IH.
  - destruct (isnumeric k0); simpl; [f_equal|]; exact IH.
Qed.

Lemma levels_available_numeric (d : list (string * json)) (lv : string) :
  In lv (levels_available d) -> isnumeric lv = true.
Proof.
  unfold levels_available. intros H. apply in_map_iff in H as ([k v] & <- & H).
  apply filter_In in H as [_ H]. exact H.
Qed.

Lemma level_fields_remove (k : string) (d : list (string * json)) (f : string) (dflt : json) :
  isnumeric k = false -> level_fields (dict_remove k d) f dflt = level_fields d f dflt.
Proof.
  intros Hk. unfold level_fields. rewrite levels_available_remove by exact Hk.
  apply mapM_ext_in. intros lv Hlv. unfold level_field.
  rewrite dict_get_default_remove_ne; [reflexivity|].
  intros ->. apply levels_available_numeric in Hlv. congruence.
Qed.

Lemma level_deltas_remove (k : string) (d : list (string * json)) (f : string)
    (mk : json -> TimeDelta) :
  isnumeric k = false -> level_deltas (dict_remove k d) f mk = level_deltas d f mk.
Proof.
  intros Hk. unfold level_deltas. rewrite level_fields_remove by exact Hk. reflexivity.
Qed.

Lemma load_derived_remove_BarrackLevel (d : list (string * json)) (dps : option (UnitStat json))
    (labs : list json) :
  load_derived (dict_remove "BarrackLevel" d) dps labs = load_derived d dps labs.
Proof.
  unfold load_derived.
  rewrite !level_fields_remove, !level_deltas_remove by reflexivity.
  rewrite !dict_get_default_remove_ne by discriminate.
  reflexivity.
Qed.

Lemma production_building_remove_BarrackLevel (PETS_ORDER : list string) (nm : string)
    (d : list (string * json)) :
  production_building PETS_ORDER nm (dict_remove "BarrackLevel" d)
  = production_building PETS_ORDER nm d.
Proof.
  unfold production_building. rewrite dict_get_default_remove_ne by discriminate. reflexivity.
Qed.

(** In the barracks family, with a [BarrackLevel] that is not set, the branch
    reads the raw values and nothing else. *)
Lemma laboratory_levels_unset_BarrackLevel (buildings : list (string * json)) (l2t : list (Z * Z))
    (json_meta : list (string * json)) (pb : json) :
  json_in pb barracks_family = true ->
  truthy (dict_get_default json_meta "BarrackLevel" JNull) = false ->
  laboratory_levels buildings l2t json_meta pb =
    (let! raw := level_fields json_meta "LaboratoryLevel" JNull in Ok (LabLevels raw)).
Proof.
  intros Hfam Hlvl. unfold laboratory_levels.
  rewrite (json_in_truthy _ Hfam), Hfam, Hlvl. simpl.
  destruct (json_in_is_str _ _ Hfam) as (s & -> & _). reflexivity.
Qed.

Lemma level_field_value (json_meta : list (string * json)) (f : string) (d : json)
    (lv : string) :
  level_field json_meta f d lv
  = if is_dict (dict_get_default json_meta lv JNull)
    then Ok (level_value json_meta f d lv) else Raise AttributeError.
Proof.
  unfold level_field, level_value, py_get.
  destruct (dict_get_default json_meta lv JNull); reflexivity.
Qed.

(** A comprehension over the level blocks gives the per-level values when
    every block is a dict, and raises [AttributeError] otherwise. *)
Lemma level_fields_values (json_meta : list (string * json)) (f : string) (d : json) :
  level_fields json_meta f d
  = if all_blocks_dicts json_meta then Ok (level_values json_meta f d)
    else Raise AttributeError.
Proof.
  unfold level_fields, all_blocks_dicts, level_values.
  induction (levels_available json_meta) as [|lv ls IH]; [reflexivity|].
  cbn [mapM forallb List.map]. rewrite IH, level_field_value.
  destruct (is_dict (dict_get_default json_meta lv JNull)); cbn [rbind andb]; [|reflexivity].
  destruct (forallb _ ls); reflexivity.
Qed.

(** C10.  For a unit of the barracks family whose [BarrackLevel] is present
    but not set (0, or any value Python counts as false): whatever the
    unlock table and the laboratory-to-town-hall map are, the laboratory
    levels are the [LaboratoryLevel] values of the level blocks as they are,
    one per level and in the order of the levels ([None] where a block has
    none), or [AttributeError] when a block is no dict; the class then loads
    with these values as its laboratory-level series; and the whole load
    gives what it gives for the same entry without the [BarrackLevel] key. *)
Theorem unset_BarrackLevel_like_absent (PETS_ORDER : list string)
    (buildings : list (string * json)) (cname : string) (json_meta : list (string * json))
    (i : Z) (nm : string) (l2t : list (Z * Z)) (lvl : json) :
  json_in (fst (production_building PETS_ORDER nm json_meta)) barracks_family = true ->
  dict_get json_meta "BarrackLevel" = Some lvl ->
  truthy lvl = false ->
  (forall buildings' l2t',
      laboratory_levels buildings' l2t' json_meta
        (fst (production_building PETS_ORDER nm json_meta))
      = if all_blocks_dicts json_meta
        then Ok (LabLevels (level_values json_meta "LaboratoryLevel" JNull))
        else Raise AttributeError)
  /\ (all_blocks_dicts json_meta = true ->
      exists t attrs,
        _load_json_meta PETS_ORDER buildings cname json_meta i nm l2t = Ok t
        /\ loaded_attrs t = Some attrs
        /\ lab_level attrs
           = try_enum_UnitStat is_null (level_values json_meta "LaboratoryLevel" JNull))
  /\ dict_get (dict_remove "BarrackLevel" json_meta) "BarrackLevel" = None
  /\ _load_json_meta PETS_ORDER buildings cname json_meta i nm l2t
     = _load_json_meta PETS_ORDER buildings cname (dict_remove "BarrackLevel" json_meta) i nm l2t.
Proof.
  intros Hfam Hget Hlvl.
  assert (Hunset : truthy (dict_get_default json_meta "BarrackLevel" JNull) = false).
  { unfold dict_get_default. rewrite Hget. exact Hlvl. }
  assert (L : forall b' l', laboratory_levels b' l' json_meta
                (fst (production_building PETS_ORDER nm json_meta))
              = (let! raw := level_fields json_meta "LaboratoryLevel" JNull in Ok (LabLevels raw))).
  { intros b' l'. apply laboratory_levels_unset_BarrackLevel; assumption. }
  split; [|split; [|split; [apply dict_get_remove_eq|]]].
  - intros b' l'. rewrite L, level_fields_values.
    destruct (all_blocks_dicts json_meta); reflexivity.
  - intros Hdicts.
    assert (Hraw : level_fields json_meta "LaboratoryLevel" JNull
                   = Ok (level_values json_meta "LaboratoryLevel" JNull)).
    { rewrite level_fields_values, Hdicts. reflexivity. }
    assert (L' : laboratory_levels buildings l2t json_meta
                   (fst (production_building PETS_ORDER nm json_meta))
                 = Ok (LabLevels (level_values json_meta "LaboratoryLevel" JNull))).
    { rewrite L, Hraw. reflexivity. }
    destruct (_load_json_meta_ok PETS_ORDER buildings cname json_meta i nm l2t _ _ _ _
                Hraw L') as [t Ht].
    destruct (_load_json_meta_inv _ _ _ _ _ _ _ _ Ht) as (outcome & L2 & _ & _ & _ & Hout).
    rewrite L' in L2. injection L2 as <-. destruct Hout as (attrs & Hattrs & Hder).
    destruct (load_derived_ok json_meta _ _ _ (dps t)
                (level_values json_meta "LaboratoryLevel" JNull) Hraw) as (attrs' & E & Hl & _).
    rewrite Hder in E. injection E as <-.
    exists t, attrs. repeat split; assumption.
  - unfold _load_json_meta.
    rewrite production_building_remove_BarrackLevel.
    rewrite !level_fields_remove by reflexivity.
    rewrite !dict_get_default_remove_ne by discriminate.
    rewrite L.
    rewrite (laboratory_levels_unset_BarrackLevel buildings l2t
               (dict_remove "BarrackLevel" json_meta) _ Hfam).
    2:{ unfold dict_get_default. rewrite dict_get_remove_eq. reflexivity. }
    rewrite level_fields_remove by reflexivity.
    destruct (level_fields json_meta "AttackRange" JNull); simpl; [|reflexivity].
    destruct (level_fields json_meta "DPS" JNull); simpl; [|reflexivity].
    destruct (level_fields json_meta "Hitpoints" JNull); simpl; [|reflexivity].
    destruct (level_fields json_meta "LaboratoryLevel" JNull); simpl; [|reflexivity].
    rewrite load_derived_remove_BarrackLevel. reflexivity.
Qed.

Lemma unset_BarrackLevel_like_absent_witness :
  (forall buildings' l2t',
      laboratory_levels buildings' l2t' ex_zero_barrack
        (fst (production_building ex_pets_order "Boxer Giant" ex_zero_barrack))
      = Ok (LabLevels [JInt 2; JInt 1]))
  /\ (exists t attrs,
        _load_json_meta ex_pets_order ex_buildings "Troop" ex_zero_barrack 2000 "Boxer Giant"
          ex_lab_to_townhall = Ok t
        /\ loaded_attrs t = Some attrs
        /\ lab_level attrs = Some {| all_levels := [JInt 2; JInt 1] |})
  /\ dict_get (dict_remove "BarrackLevel" ex_zero_barrack) "BarrackLevel" = None
  /\ _load_json_meta ex_pets_order ex_buildings "Troop" ex_zero_barrack 2000 "Boxer Giant"
       ex_lab_to_townhall
     = _load_json_meta ex_pets_order ex_buildings "Troop"
         (dict_remove "BarrackLevel" ex_zero_barrack) 2000 "Boxer Giant" ex_lab_to_townhall.
Proof.
  destruct (unset_BarrackLevel_like_absent ex_pets_order ex_buildings "Troop" ex_zero_barrack
              2000 "Boxer Giant" ex_lab_to_townhall (JInt 0) eq_refl eq_refl eq_refl)
    as (Hlab & Hload & Hgone & Hsame).
  split; [|split; [|split]].
  - exact Hlab.
  - exact (Hload eq_refl).
  - exact Hgone.
  - exact Hsame.
Defined.

(** ** The required town-hall levels *)

Lemma load_derived_inv (json_meta : list (string * json)) (dps : option (UnitStat json))
    (labs : list json) (attrs : derived) :
  load_derived json_meta dps labs = Ok attrs ->
  lab_level attrs = try_enum_UnitStat is_null labs
  /\ exists req, level_fields json_meta "RequiredTownHallLevel" JNull = Ok req
       /\ required_th_level attrs =
            try_enum_UnitStat is_null (if existsb truthy req then req else labs).
Proof.
  intros H. pose proof H as H'. unfold load_derived in H'.
  destruct (level_fields json_meta "Speed" JNull) as [vs|e] eqn:E; simpl in H'; [|discriminate].
  destruct (load_derived_ok json_meta _ _ _ dps labs E) as (attrs' & E' & Hl & Hr).
  rewrite H in E'. injection E' as <-. split; assumption.
Qed.

Lemma all_null_none_truthy (vs : list json) :
  forallb is_null vs = true -> existsb truthy vs = false.
Proof.
  induction vs as [|v vs IH]; simpl; [reflexivity|].
  intros H. apply andb_true_iff in H as [Hv H].
  destruct v; try discriminate. simpl. apply IH. exact H.
Qed.

Lemma some_truthy_not_all_null (vs : list json) :
  existsb truthy vs = true -> forallb is_null vs = false.
Proof.
  intros H. destruct (forallb is_null vs) eqn:E; [|reflexivity].
  rewrite (all_null_none_truthy _ E) in H. discriminate.
Qed.

(** C6, as amended.  For a built template, with the [RequiredTownHallLevel]
    values of the level blocks, one per level and in the order of the levels:
    when at least one of them is set (Python's [any]: not [None], not 0, not
    empty), the required-town-hall series is made of exactly these values;
    otherwise, so when they are all missing, [None], 0 or empty, it is the
    laboratory-level series, itself made of the laboratory levels the
    resolution gave. *)
Theorem required_th_level_series (PETS_ORDER : list string) (buildings : list (string * json))
    (cname : string) (json_meta : list (string * json)) (i : Z) (nm : string)
    (l2t : list (Z * Z)) (t : template) :
  _load_json_meta PETS_ORDER buildings cname json_meta i nm l2t = Ok t ->
  is_loaded t = true ->
  exists attrs labs,
    loaded_attrs t = Some attrs
    /\ laboratory_levels buildings l2t json_meta
         (fst (production_building PETS_ORDER nm json_meta)) = Ok (LabLevels labs)
    /\ lab_level attrs = try_enum_UnitStat is_null labs
    /\ (existsb truthy (level_values json_meta "RequiredTownHallLevel" JNull) = true ->
        required_th_level attrs
        = Some {| all_levels := level_values json_meta "RequiredTownHallLevel" JNull |})
    /\ (existsb truthy (level_values json_meta "RequiredTownHallLevel" JNull) = false ->
        required_th_level attrs = lab_level attrs).
Proof.
  intros H Hloaded.
  destruct (_load_json_meta_inv _ _ _ _ _ _ _ _ H) as (outcome & L & _ & _ & _ & Hout).
  unfold is_loaded in Hloaded.
  destruct outcome as [labs|]; [|rewrite Hout in Hloaded; discriminate].
  destruct Hout as (attrs & Hattrs & Hder).
  destruct (load_derived_inv _ _ _ _ Hder) as (Hl & req & Hreq & Hr).
  assert (Hvals : req = level_values json_meta "RequiredTownHallLevel" JNull).
  { rewrite level_fields_values in Hreq.
    destruct (all_blocks_dicts json_meta); [|discriminate]. injection Hreq as <-. reflexivity. }
  subst req.
  exists attrs, labs. split; [exact Hattrs|]. split; [exact L|]. split; [exact Hl|]. split.
  - intros E. rewrite Hr, E. unfold try_enum_UnitStat.
    rewrite (some_truthy_not_all_null _ E). reflexivity.
  - intros E. rewrite Hr, E, Hl. reflexivity.
Qed.

Lemma required_th_level_series_witness :
  exists attrs,
    loaded_attrs ex_golem_template = Some attrs
    /\ lab_level attrs = Some {| all_levels := [JInt 1; JInt 6] |}
    /\ required_th_level attrs = Some {| all_levels := [JInt 7; JInt 8] |}.
Proof.
  destruct (required_th_level_series ex_pets_order ex_buildings "Troop" ex_golem 2000 "Golem"
              ex_lab_to_townhall ex_golem_template eq_refl eq_refl)
    as (attrs & labs & Hattrs & Hlabs & Hlab & Hset & _).
  exists attrs. split; [exact Hattrs|]. split.
  - rewrite Hlab. injection Hlabs as <-. reflexivity.
  - exact (Hset eq_refl).
Defined.

(** C6 as stated fails: a built template whose two level blocks both hold
    [RequiredTownHallLevel], with the value 0, has the laboratory levels 5
    and 6 as its required-town-hall series, not the per-level values 0
    and 0. *)
Lemma zero_required_th_levels_are_replaced :
  exists attrs,
    dict_get ex_zero_th "1"
    = Some (JDict [("LaboratoryLevel", JInt 5); ("RequiredTownHallLevel", JInt 0)])
    /\ dict_get ex_zero_th "2"
       = Some (JDict [("LaboratoryLevel", JInt 6); ("RequiredTownHallLevel", JInt 0)])
    /\ level_values ex_zero_th "RequiredTownHallLevel" JNull = [JInt 0; JInt 0]
    /\ _load_json_meta ex_pets_order ex_buildings "Troop" ex_zero_th 2000 "Golem"
         ex_lab_to_townhall = Ok ex_zero_th_template
    /\ loaded_attrs ex_zero_th_template = Some attrs
    /\ lab_level attrs = Some {| all_levels := [JInt 5; JInt 6] |}
    /\ required_th_level attrs = Some {| all_levels := [JInt 5; JInt 6] |}
    /\ required_th_level attrs <> Some {| all_levels := [JInt 0; JInt 0] |}.
Proof.
  eexists. vm_compute. repeat split; try reflexivity. discriminate.
Qed.

(** ** The loop of [_load_json] *)

Section HolderFacts.

Variable PETS_ORDER : list string.
Variable buildings : list (string * json).
Variable english_aliases : gmap string string.
Variable lab_to_townhall : list (Z * Z).

Local Abbreviation run := (load_entries PETS_ORDER buildings).

Lemma load_entries_FILE_PATH (entries : list (string * json)) (i : Z) (h : holder) :
  FILE_PATH (fst (run entries english_aliases lab_to_townhall i h)) = FILE_PATH h.
Proof.
  revert i h; induction entries as [|[k meta] rest IH]; intros i h; simpl; [reflexivity|].
  destruct meta; try reflexivity.
  destruct (skipped (FILE_PATH h) k d); [apply IH|].
  destruct (new_item _ _ _ _ _ _ _) as [item|e]; [|reflexivity].
  rewrite IH. reflexivity.
Qed.

(** The entries after a prefix that ran without an exception are run from
    the holder the prefix left. *)
Lemma load_entries_app (pre rest : list (string * json)) (i : Z) (h h1 : holder) :
  run pre english_aliases lab_to_townhall i h = (h1, None) ->
  FILE_PATH h1 = FILE_PATH h
  /\ exists i1, run (pre ++ rest) english_aliases lab_to_townhall i h
                = run rest english_aliases lab_to_townhall i1 h1.
Proof.
  revert i h; induction pre as [|[k meta] pre IH]; intros i h H; simpl in *.
  - injection H as <-. split; [reflexivity|]. exists i. reflexivity.
  - destruct meta; try discriminate.
    destruct (skipped (FILE_PATH h) k d); [apply IH; exact H|].
    destruct (new_item _ _ _ _ _ _ _) as [item|e]; [|discriminate].
    destruct (IH _ _ H) as [Hp Hrun]. split; [exact Hp | exact Hrun].
Qed.

(** An entry one of the five tests skips leaves no trace. *)
Lemma load_entries_skip (pre post : list (string * json)) (k : string)
    (m : list (string * json)) (i : Z) (h : holder) :
  skipped (FILE_PATH h) k m = true ->
  run (pre ++ (k, JDict m) :: post) english_aliases lab_to_townhall i h
  = run (pre ++ post) english_aliases lab_to_townhall i h.
Proof.
  revert i h; induction pre as [|[k0 meta] pre IH]; intros i h H; simpl.
  - rewrite H. reflexivity.
  - destruct meta; try reflexivity.
    destruct (skipped (FILE_PATH h) k0 d); [apply IH; exact H|].
    destruct (new_item _ _ _ _ _ _ _) as [item|e]; [|reflexivity].
    apply IH. exact H.
Qed.

(** The ordered collection only grows. *)
Lemma load_entries_items (entries : list (string * json)) (i : Z) (h : holder) :
  exists more,
    items (fst (run entries english_aliases lab_to_townhall i h)) = (items h ++ more)%list.
Proof.
  revert i h; induction entries as [|[k meta] rest IH]; intros i h; simpl.
  - exists []. rewrite app_nil_r. reflexivity.
  - destruct meta; try (exists []; rewrite app_nil_r; reflexivity).
    destruct (skipped (FILE_PATH h) k d); [apply IH|].
    destruct (new_item _ _ _ _ _ _ _) as [item|e];
      [|exists []; rewrite app_nil_r; reflexivity].
    destruct (IH (i + 1) (register item h)) as [more Hmore].
    exists (item :: more). rewrite Hmore. simpl. rewrite <- app_assoc. reflexivity.
Qed.

(** A name that resolves keeps resolving. *)
Lemma load_entries_resolves (entries : list (string * json)) (i : Z) (h : holder) (k : string) :
  is_Some (item_lookup h !! k) ->
  is_Some (item_lookup (fst (run entries english_aliases lab_to_townhall i h)) !! k).
Proof.
  revert i h; induction entries as [|[k0 meta] rest IH]; intros i h H; simpl; [exact H|].
  destruct meta; try exact H.
  destruct (skipped (FILE_PATH h) k0 d); [apply IH; exact H|].
  destruct (new_item _ _ _ _ _ _ _) as [item|e]; [|exact H].
  apply IH. simpl. unfold ci_setitem.
  destruct (decide (lower (name item) = k)) as [->|Hne].
  - rewrite lookup_insert_eq. eexists. reflexivity.
  - rewrite lookup_insert_ne by exact Hne. exact H.
Qed.

(** [_load_json] changes the collection and the lookup as its loop does. *)
Lemma _load_json_items (data : list (string * json)) (h : holder) :
  items (fst (_load_json PETS_ORDER buildings data english_aliases lab_to_townhall h))
  = items (fst (run data english_aliases lab_to_townhall 2000 h))
  /\ item_lookup (fst (_load_json PETS_ORDER buildings data english_aliases lab_to_townhall h))
     = item_lookup (fst (run data english_aliases lab_to_townhall 2000 h)).
Proof.
  unfold _load_json. destruct (run data _ _ 2000 h) as [h' [e|]]; split; reflexivity.
Qed.

End HolderFacts.

(** ** Entries the loop skips *)

(** C5, as amended.  An entry that lacks a [TID], or has [Tutorial] in its
    identifier, or has [DisableProduction] set while the file is not the pets
    file, or is marked [Deprecated], or is in the pet-exclusion list while the
    file is the pets file, is never built: the load leaves the holder, the
    identifiers given to the other entries and the outcome exactly as it does
    on the data without that entry.  So a deprecated entry is neither in the
    ordered collection nor behind any name. *)
Theorem skipped_entries_never_built (PETS_ORDER : list string) (buildings : list (string * json))
    (pre post : list (string * json)) (k : string) (m : list (string * json))
    (english_aliases : gmap string string) (l2t : list (Z * Z)) (h : holder) :
  truthy (dict_get_default m "TID" JNull) = false
  \/ contains "Tutorial" k = true
  \/ (truthy (dict_get_default m "DisableProduction" JNull) = true
      /\ contains "pets" (FILE_PATH h) = false)
  \/ truthy (dict_get_default m "Deprecated" JNull) = true
  \/ (contains "pets" (FILE_PATH h) = true /\ str_in k IGNORED_PETS = true) ->
  _load_json PETS_ORDER buildings (pre ++ (k, JDict m) :: post) english_aliases l2t h
  = _load_json PETS_ORDER buildings (pre ++ post) english_aliases l2t h.
Proof.
  intros H. unfold _load_json. rewrite load_entries_skip; [reflexivity|].
  unfold skipped.
  destruct H as [H|[H|[[H1 H2]|[H|[H1 H2]]]]].
  - rewrite H. reflexivity.
  - rewrite H. rewrite orb_true_r. reflexivity.
  - rewrite H1, H2. simpl. rewrite !orb_true_r. reflexivity.
  - rewrite H. rewrite !orb_true_r. reflexivity.
  - rewrite H1, H2. simpl. rewrite !orb_true_r. reflexivity.
Qed.

Lemma skipped_entries_never_built_witness :
  _load_json ex_pets_order ex_buildings
    ([("Knight", JDict ex_knight)] ++ ("OldGolem", JDict ex_deprecated)
       :: [("King", JDict ex_no_building)])
    ex_aliases ex_lab_to_townhall ex_troops
  = _load_json ex_pets_order ex_buildings
      ([("Knight", JDict ex_knight)] ++ [("King", JDict ex_no_building)])
      ex_aliases ex_lab_to_townhall ex_troops.
Proof.
  apply (skipped_entries_never_built ex_pets_order ex_buildings
           [("Knight", JDict ex_knight)] [("King", JDict ex_no_building)]
           "OldGolem" ex_deprecated ex_aliases ex_lab_to_townhall ex_troops).
  right. right. right. left. reflexivity.
Defined.

(** C5 as stated fails: in a file that is not the pets file, an entry whose
    identifier is in the pet-exclusion list is built, appended and
    resolvable by its name. *)
Lemma excluded_pet_name_in_troops_file_is_built :
  str_in "Unused" IGNORED_PETS = true
  /\ contains "pets" (FILE_PATH ex_troops) = false
  /\ items (fst (_load_json ex_pets_order ex_buildings [("Unused", JDict ex_no_building)]
                   ex_aliases ex_lab_to_townhall ex_troops)) = [ex_king_template]
  /\ get (fst (_load_json ex_pets_order ex_buildings [("Unused", JDict ex_no_building)]
                 ex_aliases ex_lab_to_townhall ex_troops)) "Barbarian King"
     = Some ex_king_template.
Proof.
  vm_compute. repeat split; reflexivity.
Qed.

(** ** A reverse lookup that does not give one laboratory level *)

Lemma first_lab_level_ambiguous (l2t : list (Z * Z)) (th : json) :
  List.length (reverse_lookup l2t th) <> 1%nat -> first_lab_level l2t th = Raise ValueError.
Proof.
  unfold reverse_lookup, first_lab_level.
  destruct (List.filter _ l2t) as [|kv [|kv' l]]; simpl; intros H; congruence.
Qed.

Lemma floor_level_min_th (buildings : list (string * json)) (l2t : list (Z * Z)) (pb : json)
    (json_meta : list (string * json)) :
  floor_level buildings l2t pb json_meta
  = (let! th := min_th_level buildings pb json_meta in first_lab_level l2t th).
Proof.
  unfold floor_level, min_th_level, unlock_floor.
  destruct (buildings_get buildings pb); simpl; [|reflexivity].
  destruct (min_prod_unit_level pb json_meta); simpl; [|reflexivity].
  destruct (py_get _ _ _); simpl; [|reflexivity].
  destruct (py_get _ _ _); reflexivity.
Qed.

Lemma new_item_ambiguous (PETS_ORDER : list string) (buildings : list (string * json))
    (h : holder) (m : list (string * json)) (i : Z) (english_aliases : gmap string string)
    (l2t : list (Z * Z)) (nm : string) (rs : list json) (th : json) :
  aliases_getitem english_aliases (dict_get_default m "TID" JNull) = Ok nm ->
  level_fields m "AttackRange" JNull = Ok rs ->
  floored_path (fst (production_building PETS_ORDER nm m)) m = true ->
  min_th_level buildings (fst (production_building PETS_ORDER nm m)) m = Ok th ->
  List.length (reverse_lookup l2t th) <> 1%nat ->
  new_item PETS_ORDER buildings h m i english_aliases l2t = Raise ValueError.
Proof.
  intros Ha Hr Hp Hth Hamb. unfold new_item. rewrite Ha. simpl. unfold _load_json_meta.
  rewrite Hr.
  destruct (level_fields_ok _ _ "DPS" _ JNull _ Hr) as [? ->].
  destruct (level_fields_ok _ _ "Hitpoints" _ JNull _ Hr) as [? ->].
  simpl. rewrite (laboratory_levels_floored _ _ _ _ Hp), floor_level_min_th, Hth.
  simpl. rewrite (first_lab_level_ambiguous _ _ Hamb). reflexivity.
Qed.

Lemma load_entries_loaded (PETS_ORDER : list string) (buildings : list (string * json))
    (english_aliases : gmap string string) (l2t : list (Z * Z))
    (entries : list (string * json)) (i : Z) (h : holder) :
  loaded (fst (load_entries PETS_ORDER buildings entries english_aliases l2t i h)) = loaded h.
Proof.
  revert i h; induction entries as [|[k meta] rest IH]; intros i h; simpl; [reflexivity|].
  destruct meta; try reflexivity.
  destruct (skipped (FILE_PATH h) k d); [apply IH|].
  destruct (new_item _ _ _ _ _ _ _) as [item|e]; [|reflexivity].
  rewrite IH. reflexivity.
Qed.

(** C2, as amended.  When the entries before a unit load without an
    exception and, for that unit, the reverse lookup of the required
    town-hall level gives no laboratory level or more than one, [_load_json]
    ends there with [ValueError]: the holder is the one the earlier entries
    left, the flag [loaded] is not set, and no later entry is looked at. *)
Theorem ambiguous_unlock_aborts_load (PETS_ORDER : list string) (buildings : list (string * json))
    (pre post : list (string * json)) (k : string) (m : list (string * json))
    (english_aliases : gmap string string) (l2t : list (Z * Z)) (h h1 : holder)
    (nm : string) (rs : list json) (th : json) :
  load_entries PETS_ORDER buildings pre english_aliases l2t 2000 h = (h1, None) ->
  skipped (FILE_PATH h) k m = false ->
  aliases_getitem english_aliases (dict_get_default m "TID" JNull) = Ok nm ->
  level_fields m "AttackRange" JNull = Ok rs ->
  floored_path (fst (production_building PETS_ORDER nm m)) m = true ->
  min_th_level buildings (fst (production_building PETS_ORDER nm m)) m = Ok th ->
  List.length (reverse_lookup l2t th) <> 1%nat ->
  _load_json PETS_ORDER buildings (pre ++ (k, JDict m) :: post) english_aliases l2t h
  = (h1, Some ValueError)
  /\ loaded h1 = loaded h.
Proof.
  intros Hpre Hskip Ha Hr Hp Hth Hamb.
  destruct (load_entries_app PETS_ORDER buildings english_aliases l2t pre
              ((k, JDict m) :: post) 2000 h h1 Hpre) as [Hfp [i1 Hrun]].
  split.
  - unfold _load_json. rewrite Hrun. simpl. rewrite Hfp, Hskip.
    rewrite (new_item_ambiguous _ _ _ _ _ _ _ _ _ _ Ha Hr Hp Hth Hamb). reflexivity.
  - pose proof (load_entries_loaded PETS_ORDER buildings english_aliases l2t pre 2000 h) as Hl.
    rewrite Hpre in Hl. exact Hl.
Qed.

Lemma ambiguous_unlock_aborts_load_witness :
  _load_json ex_pets_order ex_buildings
    ([("King", JDict ex_no_building)] ++ ("Knight", JDict ex_knight)
       :: [("Golem", JDict ex_golem)])
    ex_aliases ex_ambiguous_map ex_troops
  = (fst (load_entries ex_pets_order ex_buildings [("King", JDict ex_no_building)]
            ex_aliases ex_ambiguous_map 2000 ex_troops), Some ValueError)
  /\ loaded (fst (load_entries ex_pets_order ex_buildings [("King", JDict ex_no_building)]
                    ex_aliases ex_ambiguous_map 2000 ex_troops)) = loaded ex_troops.
Proof.
  apply (ambiguous_unlock_aborts_load ex_pets_order ex_buildings
           [("King", JDict ex_no_building)] [("Golem", JDict ex_golem)]
           "Knight" ex_knight ex_aliases ex_ambiguous_map ex_troops _
           "Knight" [JNull; JNull; JNull; JNull; JNull; JNull] (JInt 9));
    try (vm_compute; reflexivity).
  vm_compute. discriminate.
Defined.

(** C2 as stated fails: with a map in which two laboratory levels come with
    town hall 9, the load of a knight followed by a hero ends with
    [ValueError] on the knight, and the hero, which loads on its own, is
    neither in the collection nor behind its name. *)
Lemma ambiguous_unlock_loses_later_entries :
  _load_json ex_pets_order ex_buildings
    [("Knight", JDict ex_knight); ("King", JDict ex_no_building)]
    ex_aliases ex_ambiguous_map ex_troops = (ex_troops, Some ValueError)
  /\ items ex_troops = []
  /\ get ex_troops "Barbarian King" = None
  /\ snd (_load_json ex_pets_order ex_buildings [("King", JDict ex_no_building)]
            ex_aliases ex_ambiguous_map ex_troops) = None
  /\ get (fst (_load_json ex_pets_order ex_buildings [("King", JDict ex_no_building)]
                 ex_aliases ex_ambiguous_map ex_troops)) "Barbarian King" <> None.
Proof.
  vm_compute. repeat split; try reflexivity. discriminate.
Qed.

(** ** A production building that is not known *)

(** An unknown building, for a unit that is not named after a pet, ends the
    resolution with the bare [return]. *)
Lemma laboratory_levels_unknown (PETS_ORDER : list string) (buildings : list (string * json))
    (l2t : list (Z * Z)) (json_meta : list (string * json)) (nm pb : string) :
  dict_get json_meta "ProductionBuilding" = Some (JStr pb) ->
  pb <> "" ->
  str_in pb recognized_buildings = false ->
  str_in nm PETS_ORDER = false ->
  production_building PETS_ORDER nm json_meta = (JStr pb, None)
  /\ laboratory_levels buildings l2t json_meta (JStr pb) = Ok NotDerivable.
Proof.
  intros Hget Hne Hrec Hpet.
  unfold recognized_buildings, barracks_family, str_in in Hrec. simpl in Hrec.
  apply orb_false_iff in Hrec as [E1 Hrec].
  apply orb_false_iff in Hrec as [E2 Hrec].
  apply orb_false_iff in Hrec as [E3 Hrec].
  apply orb_false_iff in Hrec as [E4 Hrec].
  apply orb_false_iff in Hrec as [E5 Hrec].
  apply orb_false_iff in Hrec as [E6 Hrec].
  apply orb_false_iff in Hrec as [E7 _].
  split.
  - unfold production_building, dict_get_default. rewrite Hget. simpl.
    rewrite E5, E4, E1, E2, E3, Hpet. reflexivity.
  - unfold laboratory_levels, json_in, barracks_family. simpl.
    destruct (String.eqb_spec pb ""); [congruence|]. simpl.
    rewrite E1, E2, E3, E4, E5, E6, E7. reflexivity.
Qed.

(** C3, as amended.  For an entry that is not skipped, whose production
    building is a text that is none of the known identifiers and whose name is
    not in the pets name list: no laboratory levels are derived and the class
    is left not loaded, yet it is appended to the ordered collection and its
    name resolves after the load. *)
Theorem unknown_building_is_registered (PETS_ORDER : list string)
    (buildings : list (string * json)) (pre post : list (string * json)) (k : string)
    (m : list (string * json)) (english_aliases : gmap string string) (l2t : list (Z * Z))
    (h h1 : holder) (nm pb : string) (rs : list json) :
  load_entries PETS_ORDER buildings pre english_aliases l2t 2000 h = (h1, None) ->
  skipped (FILE_PATH h) k m = false ->
  aliases_getitem english_aliases (dict_get_default m "TID" JNull) = Ok nm ->
  level_fields m "AttackRange" JNull = Ok rs ->
  dict_get m "ProductionBuilding" = Some (JStr pb) ->
  pb <> "" ->
  str_in pb recognized_buildings = false ->
  str_in nm PETS_ORDER = false ->
  exists t t',
    In t (items (fst (_load_json PETS_ORDER buildings (pre ++ (k, JDict m) :: post)
                        english_aliases l2t h)))
    /\ name t = nm
    /\ is_loaded t = false
    /\ get (fst (_load_json PETS_ORDER buildings (pre ++ (k, JDict m) :: post)
                   english_aliases l2t h)) nm = Some t'.
Proof.
  intros Hpre Hskip Ha Hr Hget Hne Hrec Hpet.
  destruct (laboratory_levels_unknown PETS_ORDER buildings l2t m nm pb Hget Hne Hrec Hpet)
    as [Hpb Hlab].
  destruct (load_entries_app PETS_ORDER buildings english_aliases l2t pre
              ((k, JDict m) :: post) 2000 h h1 Hpre) as [Hfp [i1 Hrun]].
  assert (L : laboratory_levels buildings l2t m (fst (production_building PETS_ORDER nm m))
              = Ok NotDerivable) by (rewrite Hpb; exact Hlab).
  destruct (_load_json_meta_ok PETS_ORDER buildings (data_object h1) m i1 nm l2t _ _ _ _ Hr L)
    as [t Ht].
  destruct (_load_json_meta_inv _ _ _ _ _ _ _ _ Ht) as (outcome & L' & Hname & _ & _ & Hout).
  rewrite L in L'. injection L' as <-.
  destruct (_load_json_items PETS_ORDER buildings english_aliases l2t
              (pre ++ (k, JDict m) :: post) h) as [-> Hlk].
  unfold get. rewrite Hlk. rewrite Hrun. simpl. rewrite Hfp, Hskip.
  unfold new_item. rewrite Ha. simpl. rewrite Ht.
  destruct (load_entries_items PETS_ORDER buildings english_aliases l2t post (i1 + 1)
              (register t h1)) as [more Hmore].
  assert (Hres : is_Some (item_lookup
                   (fst (load_entries PETS_ORDER buildings post english_aliases l2t (i1 + 1)
                           (register t h1))) !! lower nm)).
  { apply load_entries_resolves. simpl. unfold ci_setitem. rewrite Hname.
    rewrite lookup_insert_eq. eexists. reflexivity. }
  destruct Hres as [t' Ht'].
  exists t, t'. repeat split.
  - rewrite Hmore. simpl. apply in_or_app. left. apply in_or_app. right. left. reflexivity.
  - exact Hname.
  - unfold is_loaded. rewrite Hout. reflexivity.
  - unfold ci_getitem. rewrite Ht'. reflexivity.
Qed.

Lemma unknown_building_is_registered_witness :
  exists t t',
    In t (items (fst (_load_json ex_pets_order ex_buildings
                        ([("Knight", JDict ex_knight)] ++ ("Foo", JDict ex_foo)
                           :: [("King", JDict ex_no_building)])
                        ex_aliases ex_lab_to_townhall ex_troops)))
    /\ name t = "Foo Fighter"
    /\ is_loaded t = false
    /\ get (fst (_load_json ex_pets_order ex_buildings
                   ([("Knight", JDict ex_knight)] ++ ("Foo", JDict ex_foo)
                      :: [("King", JDict ex_no_building)])
                   ex_aliases ex_lab_to_townhall ex_troops)) "Foo Fighter" = Some t'.
Proof.
  apply (unknown_building_is_registered ex_pets_order ex_buildings
           [("Knight", JDict ex_knight)] [("King", JDict ex_no_building)]
           "Foo" ex_foo ex_aliases ex_lab_to_townhall ex_troops
           (fst (load_entries ex_pets_order ex_buildings [("Knight", JDict ex_knight)]
                   ex_aliases ex_lab_to_townhall 2000 ex_troops))
           "Foo Fighter" "Foo Factory" [JNull]);
    try (vm_compute; reflexivity).
  discriminate.
Defined.

(** C3 as stated fails: an entry whose production building is [Foo Factory]
    is in the ordered collection after the load, and its name resolves to
    it. *)
Lemma unknown_building_not_skipped :
  str_in "Foo Factory" recognized_buildings = false
  /\ dict_get ex_foo "ProductionBuilding" = Some (JStr "Foo Factory")
  /\ _load_json ex_pets_order ex_buildings [("Foo", JDict ex_foo)]
       ex_aliases ex_lab_to_townhall ex_troops
     = (set_loaded (register ex_foo_template ex_troops), None)
  /\ items (set_loaded (register ex_foo_template ex_troops)) = [ex_foo_template]
  /\ get (set_loaded (register ex_foo_template ex_troops)) "Foo Fighter" = Some ex_foo_template.
Proof.
  vm_compute. repeat split; reflexivity.
Qed.

(** ** Lookup by name *)

Lemma get_lookup (h : holder) (q : string) : get h q = item_lookup h !! lower q.
Proof.
  unfold get, ci_getitem. destruct (item_lookup h !! lower q); reflexivity.
Qed.

Lemma find_snoc {A : Type} (p : A -> bool) (l : list A) (x : A) :
  List.find p (l ++ [x])
  = match List.find p l with
    | Some y => Some y
    | None => if p x then Some x else None
    end.
Proof.
  induction l as [|y l IH]; simpl; [reflexivity|]. destruct (p y); [reflexivity | exact IH].
Qed.

(** Every key of a state of the shared lookup is the lower-cased name of the
    template it holds. *)
Lemma filled_keys (m : gmap string template) (k : string) (t : template) :
  filled m -> m !! k = Some t -> k = lower (name t).
Proof.
  intros Hf. revert k t. induction Hf as [|t0 m Hf IH]; intros k t Hk.
  - rewrite lookup_empty in Hk. discriminate.
  - unfold ci_setitem in Hk. destruct (decide (lower (name t0) = k)) as [<-|Hne].
    + rewrite lookup_insert_eq in Hk. injection Hk as <-. reflexivity.
    + rewrite lookup_insert_ne in Hk by exact Hne. apply IH. exact Hk.
Qed.

(** The lookup the loop leaves: under each key, the last of the templates
    the loop appended that has this lower-cased name, and what the lookup
    held before when there is none. *)
Lemma load_entries_lookup (PETS_ORDER : list string) (buildings : list (string * json))
    (english_aliases : gmap string string) (l2t : list (Z * Z))
    (entries : list (string * json)) (i : Z) (h : holder) :
  exists more,
    items (fst (load_entries PETS_ORDER buildings entries english_aliases l2t i h))
    = (items h ++ more)%list
    /\ forall k,
         item_lookup (fst (load_entries PETS_ORDER buildings entries english_aliases l2t i h))
           !! k
         = match List.find (fun t => String.eqb (lower (name t)) k) (rev more) with
           | Some t => Some t
           | None => item_lookup h !! k
           end.
Proof.
  revert i h; induction entries as [|[k0 meta] rest IH]; intros i h; simpl.
  - exists []. split; [rewrite app_nil_r; reflexivity | reflexivity].
  - assert (Hnone : exists more : list template,
               items h = (items h ++ more)%list
               /\ forall k, item_lookup h !! k
                            = match List.find (fun t => String.eqb (lower (name t)) k) (rev more)
                              with
                              | Some t => Some t
                              | None => item_lookup h !! k
                              end).
    { exists []. split; [rewrite app_nil_r; reflexivity | reflexivity]. }
    destruct meta; try exact Hnone.
    destruct (skipped (FILE_PATH h) k0 d); [apply IH|].
    destruct (new_item _ _ _ _ _ _ _) as [item|e]; [|exact Hnone].
    destruct (IH (i + 1) (register item h)) as (more & Hitems & Hlk).
    exists (item :: more). split.
    + rewrite Hitems. simpl. rewrite <- app_assoc. reflexivity.
    + intros k. rewrite Hlk. simpl. rewrite find_snoc.
      destruct (List.find _ (rev more)); [reflexivity|].
      unfold ci_setitem. destruct (String.eqb_spec (lower (name item)) k) as [->|Hne].
      * apply lookup_insert_eq.
      * apply lookup_insert_ne. exact Hne.
Qed.

Lemma _load_json_lookup (PETS_ORDER : list string) (buildings : list (string * json))
    (data : list (string * json)) (english_aliases : gmap string string) (l2t : list (Z * Z))
    (h : holder) (more : list template) (q : string) :
  items (fst (_load_json PETS_ORDER buildings data english_aliases l2t h))
  = (items h ++ more)%list ->
  get (fst (_load_json PETS_ORDER buildings data english_aliases l2t h)) q
  = match List.find (fun t => String.eqb (lower (name t)) (lower q)) (rev more) with
    | Some t => Some t
    | None => get h q
    end.
Proof.
  intros Hitems. rewrite !get_lookup.
  destruct (_load_json_items PETS_ORDER buildings english_aliases l2t data h) as [Hi Hl].
  rewrite Hl. rewrite Hi in Hitems.
  destruct (load_entries_lookup PETS_ORDER buildings english_aliases l2t data 2000 h)
    as (more' & Hitems' & Hlk).
  rewrite Hitems' in Hitems. apply app_inv_head in Hitems. subst more'. apply Hlk.
Qed.

(** C7.  The lookup is the dict of the class, shared by the holders, in any
    state the registrations made so far have left it; [more] are the
    templates a load appends.  After the load, whether or not it ended with
    an exception: for every query that is, up to letter case, a name
    registered before the load or the name of a template the load appended,
    [get] gives a template whose name equals the query up to letter case;
    and for every query that was registered neither before the load nor by
    it, [get] gives [None]. *)
Theorem get_by_name_round_trip (PETS_ORDER : list string) (buildings : list (string * json))
    (data : list (string * json)) (english_aliases : gmap string string) (l2t : list (Z * Z))
    (h : holder) (more : list template) :
  filled (item_lookup h) ->
  items (fst (_load_json PETS_ORDER buildings data english_aliases l2t h))
  = (items h ++ more)%list ->
  (forall q : string,
      get h q <> None \/ (exists t, In t more /\ lower (name t) = lower q) ->
      exists t',
        get (fst (_load_json PETS_ORDER buildings data english_aliases l2t h)) q = Some t'
        /\ lower (name t') = lower q)
  /\ (forall q : string,
        get h q = None ->
        (forall t, In t more -> lower (name t) <> lower q) ->
        get (fst (_load_json PETS_ORDER buildings data english_aliases l2t h)) q = None).
Proof.
  intros Hfilled Hitems. split.
  - intros q Hq. rewrite (_load_json_lookup _ _ _ _ _ _ _ q Hitems).
    destruct (List.find _ (rev more)) as [t'|] eqn:E.
    + exists t'. split; [reflexivity|]. apply find_some in E as [_ E].
      apply String.eqb_eq in E. exact E.
    + destruct Hq as [Hq|(t & Hin & Hname)].
      * destruct (get h q) as [t'|] eqn:Eg; [|congruence].
        exists t'. split; [reflexivity|]. rewrite get_lookup in Eg.
        symmetry. apply (filled_keys _ _ _ Hfilled Eg).
      * exfalso. apply in_rev in Hin. pose proof (find_none _ _ E _ Hin) as Hf.
        simpl in Hf. rewrite Hname, String.eqb_refl in Hf. discriminate.
  - intros q Hq Hnone. rewrite (_load_json_lookup _ _ _ _ _ _ _ q Hitems).
    destruct (List.find _ (rev more)) as [t'|] eqn:E; [|exact Hq].
    apply find_some in E as [Hin E]. apply in_rev in Hin.
    apply String.eqb_eq in E. exfalso. apply (Hnone _ Hin E).
Qed.

Lemma get_by_name_round_trip_witness :
  (exists t',
      get (fst (_load_json ex_pets_order ex_buildings ex_twice ex_twice_aliases
                  ex_lab_to_townhall ex_spells)) "KNIGHT" = Some t'
      /\ lower (name t') = lower "KNIGHT")
  /\ (exists t',
        get (fst (_load_json ex_pets_order ex_buildings ex_twice ex_twice_aliases
                    ex_lab_to_townhall ex_spells)) "gOlEm" = Some t'
        /\ lower (name t') = lower "gOlEm")
  /\ get (fst (_load_json ex_pets_order ex_buildings ex_twice ex_twice_aliases
                 ex_lab_to_townhall ex_spells)) "Mystery" = None.
Proof.
  destruct (get_by_name_round_trip ex_pets_order ex_buildings ex_twice ex_twice_aliases
              ex_lab_to_townhall ex_spells ex_twice_more
              (filled_register ex_knight_template ∅ filled_empty) eq_refl)
    as [Hhit Hmiss].
  split; [|split].
  - apply Hhit. left. vm_compute. discriminate.
  - apply Hhit. right. exists (nth 0 ex_twice_more blank_template).
    split; [left; reflexivity | reflexivity].
  - apply Hmiss; [reflexivity|].
    intros t [<-|[<-|[]]]; vm_compute; discriminate.
Defined.

(** ** Instances *)

(** C8.  For a reported unit whose name the registry's lookup does not hold,
    [load] raises nothing: it gives an instance of the caller's default
    class, or of the holder's [data_object] when no default is given, that
    carries the unit's level, maximum level, village and active flag. *)
Theorem load_unknown_name_uses_fallback (h : holder) (data : list (string * json))
    (townhall : json) (default : option pyclass) (n : string) (l m v : json) :
  dict_get data "name" = Some (JStr n) ->
  get h n = None ->
  dict_get data "level" = Some l ->
  dict_get data "maxLevel" = Some m ->
  dict_get data "village" = Some v ->
  exists inst,
    load h data townhall default true = Ok inst
    /\ cls inst = match default with
                  | Some c => c
                  | None => Declared (data_object h)
                  end
    /\ inst_name inst = JStr n
    /\ inst_level inst = l
    /\ max_level inst = m
    /\ inst_village inst = v
    /\ is_active inst = dict_get_default data "superTroopIsActive" JNull.
Proof.
  intros Hn Hget Hl Hm Hv. unfold load, __init__, dict_getitem.
  rewrite Hn, Hl, Hm, Hv. unfold get in Hget.
  destruct (ci_getitem (item_lookup h) (JStr n)) as [t|e] eqn:E; [discriminate|].
  assert (e = KeyError) as ->.
  { unfold ci_getitem in E. destruct (item_lookup h !! lower n); [discriminate|].
    injection E as <-. reflexivity. }
  simpl. eexists. repeat split.
Qed.

Lemma load_unknown_name_uses_fallback_witness :
  exists inst,
    load ex_loaded_troops ex_mystery_data (JInt 12) (Some (Declared "Hero")) true = Ok inst
    /\ cls inst = Declared "Hero"
    /\ inst_name inst = JStr "Mystery"
    /\ inst_level inst = JInt 3
    /\ max_level inst = JInt 10
    /\ inst_village inst = JStr "home"
    /\ is_active inst = dict_get_default ex_mystery_data "superTroopIsActive" JNull.
Proof.
  apply (load_unknown_name_uses_fallback ex_loaded_troops ex_mystery_data (JInt 12)
           (Some (Declared "Hero")) "Mystery" (JInt 3) (JInt 10) (JStr "home"));
    vm_compute; reflexivity.
Defined.

Section HashFacts.

Variable hash_int : Z -> Z.
Variable hash_str : string -> Z.
Variable hash_none : Z.
Variable hash_tuple : list Z -> Z.

Local Abbreviation hash_of := (py_hash hash_int hash_str hash_none).

(** Equal values have equal hashes, and two values that cannot be hashed
    fail alike. *)
Lemma py_eq_hash (x y : json) : py_eq x y = true -> hash_of x = hash_of y.
Proof.
  destruct x as [|bx|nx|sx|lx|dx], y as [|by'|ny|sy|ly|dy]; simpl; intros H;
    try discriminate; try reflexivity.
  - apply Bool.eqb_prop in H. subst. reflexivity.
  - apply Z.eqb_eq in H. subst. reflexivity.
  - apply Z.eqb_eq in H. subst. reflexivity.
  - apply Z.eqb_eq in H. subst. reflexivity.
  - apply String.eqb_eq in H. subst. reflexivity.
Qed.

Lemma hashable_hash (x : json) : hashable x = true -> exists z, hash_of x = Ok z.
Proof.
  destruct x; simpl; intros H; try discriminate; eexists; reflexivity.
Qed.

(** C9.  For two instances made by the constructor, of any classes and for
    any town halls, whose tuples [(name, level, village, is_active)] are
    equal: they compare equal, and their hashes are the same; when the four
    items are texts, numbers, truth values or [None], that hash is a
    number. *)
Theorem equal_tuples_equal_instances (ca cb : pyclass) (da db : list (string * json))
    (ta tb : json) (a b : instance) :
  __init__ ca da ta = Ok a ->
  __init__ cb db tb = Ok b ->
  py_eq (key_tuple a) (key_tuple b) = true ->
  __eq__ a b = true
  /\ __hash__ hash_int hash_str hash_none hash_tuple a
     = __hash__ hash_int hash_str hash_none hash_tuple b
  /\ (hashable (inst_name a) && hashable (inst_level a)
      && hashable (inst_village a) && hashable (is_active a) = true ->
      exists z, __hash__ hash_int hash_str hash_none hash_tuple a = Ok z).
Proof.
  intros Ha Hb Heq.
  assert (Hpriv : forall c d t x, __init__ c d t = Ok x ->
            _DataContainer__name x = inst_name x
            /\ _DataContainer__level x = inst_level x
            /\ _DataContainer__village x = inst_village x
            /\ _DataContainer__is_active x = is_active x).
  { intros c d t x H. unfold __init__, dict_getitem in H.
    destruct (dict_get d "name"); simpl in H; [|discriminate].
    destruct (dict_get d "level"); simpl in H; [|discriminate].
    destruct (dict_get d "maxLevel"); simpl in H; [|discriminate].
    destruct (dict_get d "village"); simpl in H; [|discriminate].
    injection H as <-. simpl. repeat split. }
  destruct (Hpriv _ _ _ _ Ha) as (A1 & A2 & A3 & A4).
  destruct (Hpriv _ _ _ _ Hb) as (B1 & B2 & B3 & B4).
  unfold key_tuple in Heq. cbn [py_eq] in Heq.
  apply andb_true_iff in Heq as [E1 Heq].
  apply andb_true_iff in Heq as [E2 Heq].
  apply andb_true_iff in Heq as [E3 Heq].
  apply andb_true_iff in Heq as [E4 _].
  split; [|split].
  - unfold __eq__. rewrite E1, E2, E3, E4. reflexivity.
  - unfold __hash__. cbn [mapM]. rewrite A1, A2, A3, A4, B1, B2, B3, B4.
    rewrite (py_eq_hash _ _ E1), (py_eq_hash _ _ E2), (py_eq_hash _ _ E3),
      (py_eq_hash _ _ E4). reflexivity.
  - intros Hh. apply andb_true_iff in Hh as [Hh H4].
    apply andb_true_iff in Hh as [Hh H3]. apply andb_true_iff in Hh as [H1 H2].
    unfold __hash__. cbn [mapM]. rewrite A1, A2, A3, A4.
    destruct (hashable_hash _ H1) as [z1 ->]. destruct (hashable_hash _ H2) as [z2 ->].
    destruct (hashable_hash _ H3) as [z3 ->]. destruct (hashable_hash _ H4) as [z4 ->].
    simpl. eexists. reflexivity.
Qed.

End HashFacts.

Lemma equal_tuples_equal_instances_witness :
  __eq__ ex_knight_unit ex_knight_unit' = true
  /\ __hash__ (fun n => n) (fun s => Z.of_nat (String.length s)) 0 (fold_right Z.add 0)
       ex_knight_unit
     = __hash__ (fun n => n) (fun s => Z.of_nat (String.length s)) 0 (fold_right Z.add 0)
         ex_knight_unit'
  /\ (hashable (inst_name ex_knight_unit) && hashable (inst_level ex_knight_unit)
      && hashable (inst_village ex_knight_unit) && hashable (is_active ex_knight_unit) = true ->
      exists z, __hash__ (fun n => n) (fun s => Z.of_nat (String.length s)) 0
                  (fold_right Z.add 0) ex_knight_unit = Ok z).
Proof.
  apply (equal_tuples_equal_instances (fun n => n) (fun s => Z.of_nat (String.length s)) 0
           (fold_right Z.add 0) (Generated ex_knight_template) (Declared "Troop")
           ex_knight_data ex_knight_data (JInt 12) (JInt 9));
    vm_compute; reflexivity.
Defined.

(** * Further properties of the registry *)

Section RegistryFacts.

Variable PETS_ORDER : list string.
Variable buildings : list (string * json).
Variable english_aliases : gmap string string.
Variable lab_to_townhall : list (Z * Z).

Local Abbreviation run := (load_entries PETS_ORDER buildings).

Lemma new_item_name_id (h : holder) (m : list (string * json)) (i : Z) (item : template) :
  new_item PETS_ORDER buildings h m i english_aliases lab_to_townhall = Ok item ->
  aliases_getitem english_aliases (dict_get_default m "TID" JNull) = Ok (name item)
  /\ id item = i.
Proof.
  unfold new_item. intros H.
  destruct (aliases_getitem _ _) as [nm|e]; simpl in H; [|discriminate].
  destruct (_load_json_meta_inv _ _ _ _ _ _ _ _ H) as (_ & _ & Hn & Hi & _).
  rewrite Hn. split; [reflexivity | exact Hi].
Qed.

Lemma load_entries_ids (entries : list (string * json)) (i : Z) (h : holder) :
  exists more,
    items (fst (run entries english_aliases lab_to_townhall i h)) = (items h ++ more)%list
    /\ forall (k : nat) (t : template), nth_error more k = Some t -> id t = i + Z.of_nat k.
Proof.
  revert i h; induction entries as [|[k0 meta] rest IH]; intros i h; simpl.
  - exists []. split; [rewrite app_nil_r; reflexivity|]. intros [|k] t; discriminate.
  - assert (Hnone : exists more : list template,
               items h = (items h ++ more)%list
               /\ forall (k : nat) (t : template), nth_error more k = Some t -> id t = i + Z.of_nat k).
    { exists []. split; [rewrite app_nil_r; reflexivity|]. intros [|k] t; discriminate. }
    destruct meta; try exact Hnone.
    destruct (skipped (FILE_PATH h) k0 d); [apply IH|].
    destruct (new_item _ _ _ _ _ _ _) as [item|e] eqn:E; [|exact Hnone].
    destruct (IH (i + 1) (register item h)) as (more & Hitems & Hids).
    exists (item :: more). split.
    + rewrite Hitems. simpl. rewrite <- app_assoc. reflexivity.
    + intros [|k] t Hk; simpl in Hk.
      * injection Hk as <-. destruct (new_item_name_id _ _ _ _ E) as [_ ->]. lia.
      * rewrite (Hids _ _ Hk). lia.
Qed.

Lemma load_entries_success (entries : list (string * json)) (i : Z) (h : holder) :
  snd (run entries english_aliases lab_to_townhall i h) = None ->
  exists more,
    items (fst (run entries english_aliases lab_to_townhall i h)) = (items h ++ more)%list
    /\ mapM (fun m => aliases_getitem english_aliases (dict_get_default m "TID" JNull))
         (kept_entries (FILE_PATH h) entries) = Ok (List.map name more)
    /\ forallb (fun kv => is_dict (snd kv)) entries = true.
Proof.
  revert i h; induction entries as [|[k0 meta] rest IH]; intros i h H; simpl in *.
  - exists []. rewrite app_nil_r. repeat split.
  - destruct meta; try discriminate. simpl.
    destruct (skipped (FILE_PATH h) k0 d); [apply IH; exact H|].
    destruct (new_item _ _ _ _ _ _ _) as [item|e] eqn:E; [|discriminate].
    destruct (IH _ _ H) as (more & Hitems & Hnames & Hdict).
    exists (item :: more). repeat split.
    + rewrite Hitems. simpl. rewrite <- app_assoc. reflexivity.
    + simpl. destruct (new_item_name_id _ _ _ _ E) as [-> _]. simpl.
      simpl in Hnames. rewrite Hnames. reflexivity.
    + exact Hdict.
Qed.

End RegistryFacts.

(** X1.  The templates one load appends carry the identifiers 2000, 2001,
    ... in the order of the collection, whatever the holder held before and
    whether or not the load ended with an exception. *)
Theorem ids_are_sequential (PETS_ORDER : list string) (buildings : list (string * json))
    (data : list (string * json)) (english_aliases : gmap string string) (l2t : list (Z * Z))
    (h : holder) :
  exists more,
    items (fst (_load_json PETS_ORDER buildings data english_aliases l2t h))
    = (items h ++ more)%list
    /\ forall (k : nat) (t : template),
         nth_error more k = Some t -> id t = 2000 + Z.of_nat k.
Proof.
  destruct (_load_json_items PETS_ORDER buildings english_aliases l2t data h) as [-> _].
  apply load_entries_ids.
Qed.

(** X2.  After a load, whatever the holder and the shared lookup held
    before, [get] gives, for any query, the last of the templates the load
    appended whose name equals the query up to letter case: of two entries
    with one name both stay in the collection and the later one answers.
    When the load appended none with that name, [get] gives what it gave
    before the load. *)
Theorem get_gives_latest (PETS_ORDER : list string) (buildings : list (string * json))
    (data : list (string * json)) (english_aliases : gmap string string) (l2t : list (Z * Z))
    (h : holder) (more : list template) (q : string) :
  items (fst (_load_json PETS_ORDER buildings data english_aliases l2t h))
  = (items h ++ more)%list ->
  get (fst (_load_json PETS_ORDER buildings data english_aliases l2t h)) q
  = match List.find (fun t => String.eqb (lower (name t)) (lower q)) (rev more) with
    | Some t => Some t
    | None => get h q
    end.
Proof.
  apply _load_json_lookup.
Qed.

Lemma get_gives_latest_witness :
  List.length ex_twice_more = 2%nat
  /\ (exists t,
        get (fst (_load_json ex_pets_order ex_buildings ex_twice ex_twice_aliases
                    ex_lab_to_townhall ex_spells)) "golem" = Some t
        /\ name t = "GOLEM" /\ id t = 2001)
  /\ get (fst (_load_json ex_pets_order ex_buildings ex_twice ex_twice_aliases
                 ex_lab_to_townhall ex_spells)) "knight"
     = get ex_spells "knight"
  /\ get ex_spells "knight" = Some ex_knight_template.
Proof.
  split; [reflexivity|]. split; [|split; [|reflexivity]].
  - rewrite (get_gives_latest ex_pets_order ex_buildings ex_twice ex_twice_aliases
               ex_lab_to_townhall ex_spells ex_twice_more "golem" eq_refl).
    eexists. split; [reflexivity|]. split; reflexivity.
  - rewrite (get_gives_latest ex_pets_order ex_buildings ex_twice ex_twice_aliases
               ex_lab_to_townhall ex_spells ex_twice_more "knight" eq_refl).
    reflexivity.
Defined.

(** X3.  When a load ends without an exception, every entry of the data is a
    dict, and the templates it appended are, in file order, one for each
    entry that passes the five tests, named by the alias of that entry's
    [TID]; the flag [loaded] is set. *)
Theorem load_without_exception (PETS_ORDER : list string) (buildings : list (string * json))
    (data : list (string * json)) (english_aliases : gmap string string) (l2t : list (Z * Z))
    (h : holder) :
  snd (_load_json PETS_ORDER buildings data english_aliases l2t h) = None ->
  loaded (fst (_load_json PETS_ORDER buildings data english_aliases l2t h)) = true
  /\ forallb (fun kv => is_dict (snd kv)) data = true
  /\ exists more,
       items (fst (_load_json PETS_ORDER buildings data english_aliases l2t h))
       = (items h ++ more)%list
       /\ mapM (fun m => aliases_getitem english_aliases (dict_get_default m "TID" JNull))
            (kept_entries (FILE_PATH h) data) = Ok (List.map name more).
Proof.
  intros H.
  destruct (_load_json_items PETS_ORDER buildings english_aliases l2t data h) as [Hi _].
  rewrite Hi. unfold _load_json in *.
  destruct (load_entries PETS_ORDER buildings data english_aliases l2t 2000 h) as [h' [e|]] eqn:E;
    [discriminate|].
  destruct (load_entries_success PETS_ORDER buildings english_aliases l2t data 2000 h)
    as (more & Hitems & Hnames & Hdict); [rewrite E; reflexivity|].
  rewrite E in Hitems. simpl in *. split; [reflexivity|]. split; [exact Hdict|].
  exists more. split; assumption.
Qed.

Lemma load_without_exception_witness :
  loaded (fst (_load_json ex_pets_order ex_buildings
                 [("Knight", JDict ex_knight); ("OldGolem", JDict ex_deprecated);
                  ("King", JDict ex_no_building)]
                 ex_aliases ex_lab_to_townhall ex_troops)) = true
  /\ forallb (fun kv => is_dict (snd kv))
       [("Knight", JDict ex_knight); ("OldGolem", JDict ex_deprecated);
        ("King", JDict ex_no_building)] = true
  /\ exists more,
       items (fst (_load_json ex_pets_order ex_buildings
                     [("Knight", JDict ex_knight); ("OldGolem", JDict ex_deprecated);
                      ("King", JDict ex_no_building)]
                     ex_aliases ex_lab_to_townhall ex_troops))
       = (items ex_troops ++ more)%list
       /\ mapM (fun m => aliases_getitem ex_aliases (dict_get_default m "TID" JNull))
            (kept_entries (FILE_PATH ex_troops)
               [("Knight", JDict ex_knight); ("OldGolem", JDict ex_deprecated);
                ("King", JDict ex_no_building)]) = Ok (List.map name more).
Proof.
  apply (load_without_exception ex_pets_order ex_buildings
           [("Knight", JDict ex_knight); ("OldGolem", JDict ex_deprecated);
            ("King", JDict ex_no_building)]
           ex_aliases ex_lab_to_townhall ex_troops).
  vm_compute. reflexivity.
Defined.

(** X4.  On a holder whose flag [loaded] is not set, the flag is set by a
    load exactly when the load ends without an exception. *)
Theorem loaded_iff_no_exception (PETS_ORDER : list string) (buildings : list (string * json))
    (data : list (string * json)) (english_aliases : gmap string string) (l2t : list (Z * Z))
    (h : holder) :
  loaded h = false ->
  (loaded (fst (_load_json PETS_ORDER buildings data english_aliases l2t h)) = true
   <-> snd (_load_json PETS_ORDER buildings data english_aliases l2t h) = None).
Proof.
  intros Hl. unfold _load_json.
  pose proof (load_entries_loaded PETS_ORDER buildings english_aliases l2t data 2000 h) as Hk.
  destruct (load_entries PETS_ORDER buildings data english_aliases l2t 2000 h) as [h' [e|]];
    simpl in *.
  - rewrite Hk, Hl. split; discriminate.
  - split; reflexivity.
Qed.

Lemma loaded_iff_no_exception_witness :
  loaded (fst (_load_json ex_pets_order ex_buildings
                 [("Knight", JDict ex_knight); ("King", JDict ex_no_building)]
                 ex_aliases ex_ambiguous_map ex_troops)) = true
  <-> snd (_load_json ex_pets_order ex_buildings
             [("Knight", JDict ex_knight); ("King", JDict ex_no_building)]
             ex_aliases ex_ambiguous_map ex_troops) = None.
Proof.
  apply (loaded_iff_no_exception ex_pets_order ex_buildings
           [("Knight", JDict ex_knight); ("King", JDict ex_no_building)]
           ex_aliases ex_ambiguous_map ex_troops).
  reflexivity.
Defined.

(** X5.  An entry whose value is not a dict ends the load with
    [AttributeError], whatever its identifier, even one the tests on the
    identifier would skip: the holder is the one the earlier entries left
    and no later entry is looked at. *)
Theorem non_dict_entry_aborts_load (PETS_ORDER : list string) (buildings : list (string * json))
    (pre post : list (string * json)) (k : string) (meta : json)
    (english_aliases : gmap string string) (l2t : list (Z * Z)) (h h1 : holder) :
  load_entries PETS_ORDER buildings pre english_aliases l2t 2000 h = (h1, None) ->
  is_dict meta = false ->
  _load_json PETS_ORDER buildings (pre ++ (k, meta) :: post) english_aliases l2t h
  = (h1, Some AttributeError).
Proof.
  intros Hpre Hmeta.
  destruct (load_entries_app PETS_ORDER buildings english_aliases l2t pre
              ((k, meta) :: post) 2000 h h1 Hpre) as [_ [i1 Hrun]].
  unfold _load_json. rewrite Hrun. simpl.
  destruct meta; try reflexivity. discriminate.
Qed.

Lemma non_dict_entry_aborts_load_witness :
  _load_json ex_pets_order ex_buildings
    ([("Knight", JDict ex_knight)] ++ ("TutorialGoblin", JList [])
       :: [("King", JDict ex_no_building)])
    ex_aliases ex_lab_to_townhall ex_troops
  = (fst (load_entries ex_pets_order ex_buildings [("Knight", JDict ex_knight)]
            ex_aliases ex_lab_to_townhall 2000 ex_troops), Some AttributeError).
Proof.
  apply (non_dict_entry_aborts_load ex_pets_order ex_buildings
           [("Knight", JDict ex_knight)] [("King", JDict ex_no_building)]
           "TutorialGoblin" (JList []) ex_aliases ex_lab_to_townhall ex_troops);
    vm_compute; reflexivity.
Defined.

(** X6.  An entry that passes the five tests and whose [TID] is a text the
    alias table does not hold ends the load with [KeyError]: the holder is
    the one the earlier entries left and no later entry is looked at. *)
Theorem missing_alias_aborts_load (PETS_ORDER : list string) (buildings : list (string * json))
    (pre post : list (string * json)) (k : string) (m : list (string * json))
    (english_aliases : gmap string string) (l2t : list (Z * Z)) (h h1 : holder) (tid : string) :
  load_entries PETS_ORDER buildings pre english_aliases l2t 2000 h = (h1, None) ->
  skipped (FILE_PATH h) k m = false ->
  dict_get m "TID" = Some (JStr tid) ->
  english_aliases !! tid = None ->
  _load_json PETS_ORDER buildings (pre ++ (k, JDict m) :: post) english_aliases l2t h
  = (h1, Some KeyError).
Proof.
  intros Hpre Hskip Htid Halias.
  destruct (load_entries_app PETS_ORDER buildings english_aliases l2t pre
              ((k, JDict m) :: post) 2000 h h1 Hpre) as [Hfp [i1 Hrun]].
  unfold _load_json. rewrite Hrun. simpl. rewrite Hfp, Hskip.
  unfold new_item, dict_get_default. rewrite Htid. simpl. rewrite Halias. reflexivity.
Qed.

Lemma missing_alias_aborts_load_witness :
  _load_json ex_pets_order ex_buildings
    ([("Knight", JDict ex_knight)] ++ ("Golem", JDict ex_golem)
       :: [("King", JDict ex_no_building)])
    {[ "TID_KNIGHT" := "Knight" ]} ex_lab_to_townhall ex_troops
  = (fst (load_entries ex_pets_order ex_buildings [("Knight", JDict ex_knight)]
            {[ "TID_KNIGHT" := "Knight" ]} ex_lab_to_townhall 2000 ex_troops), Some KeyError).
Proof.
  apply (missing_alias_aborts_load ex_pets_order ex_buildings
           [("Knight", JDict ex_knight)] [("King", JDict ex_no_building)]
           "Golem" ex_golem {[ "TID_KNIGHT" := "Knight" ]} ex_lab_to_townhall ex_troops _
           "TID_GOLEM");
    vm_compute; reflexivity.
Defined.

(** * Further properties of [load] *)

(** X7.  For a reported unit whose name the registry holds, in any letter
    case, [load] gives an instance of the registered class, the one [get]
    gives for that name; the caller's default plays no part. *)
Theorem load_known_name_uses_template (h : holder) (data : list (string * json))
    (townhall : json) (default : option pyclass) (n : string) (t : template) (l m v : json) :
  dict_get data "name" = Some (JStr n) ->
  get h n = Some t ->
  dict_get data "level" = Some l ->
  dict_get data "maxLevel" = Some m ->
  dict_get data "village" = Some v ->
  exists inst,
    load h data townhall default true = Ok inst
    /\ cls inst = Generated t
    /\ inst_name inst = JStr n
    /\ inst_level inst = l
    /\ max_level inst = m
    /\ inst_village inst = v.
Proof.
  intros Hn Hget Hl Hm Hv. unfold load, __init__, dict_getitem.
  rewrite Hn, Hl, Hm, Hv. unfold get in Hget.
  destruct (ci_getitem (item_lookup h) (JStr n)) as [t'|e]; [|discriminate].
  injection Hget as ->. simpl. eexists. repeat split.
Qed.

Lemma load_known_name_uses_template_witness :
  exists inst,
    load ex_loaded_troops ex_knight_data_upper (JInt 12) (Some (Declared "Hero")) true = Ok inst
    /\ cls inst = Generated ex_knight_template
    /\ inst_name inst = JStr "KNIGHT"
    /\ inst_level inst = JInt 9
    /\ max_level inst = JInt 14
    /\ inst_village inst = JStr "home".
Proof.
  apply (load_known_name_uses_template ex_loaded_troops ex_knight_data_upper (JInt 12)
           (Some (Declared "Hero")) "KNIGHT" ex_knight_template (JInt 9) (JInt 14) (JStr "home"));
    vm_compute; reflexivity.
Defined.

(** X8.  A reported unit that lacks one of the keys [name], [level],
    [maxLevel], [village], and whose name, if it has one, is a text, makes
    [load] raise [KeyError], with or without a default and whether or not the
    game data is looked up: the [KeyError] of a missing name is caught by the
    lookup but raised again by the constructor. *)
Theorem load_missing_key_raises (h : holder) (data : list (string * json)) (townhall : json)
    (default : option pyclass) (load_game_data : bool) :
  match dict_get data "name" with
  | Some (JStr _) | None => True
  | Some _ => False
  end ->
  dict_get data "name" = None \/ dict_get data "level" = None
  \/ dict_get data "maxLevel" = None \/ dict_get data "village" = None ->
  load h data townhall default load_game_data = Raise KeyError.
Proof.
  intros Hname Hmiss. unfold load.
  assert (Hinit : forall c, __init__ c data townhall = Raise KeyError).
  { intros c. unfold __init__, dict_getitem.
    destruct (dict_get data "name"); simpl; [|reflexivity].
    destruct (dict_get data "level"); simpl; [|reflexivity].
    destruct (dict_get data "maxLevel"); simpl; [|reflexivity].
    destruct (dict_get data "village"); simpl; [|reflexivity].
    destruct Hmiss as [H|[H|[H|H]]]; discriminate. }
  destruct load_game_data; simpl; [|apply Hinit].
  unfold dict_getitem at 1. destruct (dict_get data "name") as [key|]; simpl; [|apply Hinit].
  unfold ci_getitem. destruct key; try contradiction.
  destruct (item_lookup h !! lower s); simpl; apply Hinit.
Qed.

Lemma load_missing_key_raises_witness :
  load ex_loaded_troops ex_no_level_data (JInt 12) None true = Raise KeyError.
Proof.
  apply (load_missing_key_raises ex_loaded_troops ex_no_level_data (JInt 12) None true).
  - exact I.
  - right. left. reflexivity.
Defined.

(** * Further properties of [_load_json_meta] *)

Lemma try_enum_some {A : Type} (u : A -> bool) (vs : list A) (s : UnitStat A) :
  try_enum_UnitStat u vs = Some s -> all_levels s = vs.
Proof.
  unfold try_enum_UnitStat. destruct (forallb u vs); [discriminate|].
  intros H. injection H as <-. reflexivity.
Qed.

Lemma level_fields_length (json_meta : list (string * json)) (f : string) (d : json)
    (vs : list json) :
  level_fields json_meta f d = Ok vs -> List.length vs = List.length (levels_available json_meta).
Proof.
  unfold level_fields. apply mapM_length.
Qed.

Lemma level_deltas_length (json_meta : list (string * json)) (f : string)
    (mk : json -> TimeDelta) (ds : list TimeDelta) :
  level_deltas json_meta f mk = Ok ds ->
  (List.length ds <= List.length (levels_available json_meta))%nat.
Proof.
  unfold level_deltas. destruct (level_fields json_meta f JNull) as [vs|e] eqn:E; simpl;
    [|discriminate].
  intros H. injection H as <-. rewrite length_map.
  rewrite <- (level_fields_length _ _ _ _ E). apply List.filter_length_le.
Qed.

Lemma laboratory_levels_length (buildings : list (string * json)) (l2t : list (Z * Z))
    (json_meta : list (string * json)) (pb : json) (labs : list json) :
  laboratory_levels buildings l2t json_meta pb = Ok (LabLevels labs) ->
  List.length labs = List.length (levels_available json_meta).
Proof.
  unfold laboratory_levels, floor_levels. intros H.
  repeat match type of H with
         | Ok _ = Ok _ => injection H as <-
         | rbind ?m _ = _ =>
             let E := fresh "E" in destruct m eqn:E; simpl in H; [|discriminate]
         | (if ?c then _ else _) = _ => destruct c
         | _ => discriminate
         end;
    repeat match goal with
           | E : mapM _ _ = Ok _ |- _ => apply mapM_length in E
           | E : level_fields _ _ _ = Ok _ |- _ => apply level_fields_length in E
           end;
    congruence.
Qed.

Lemma level_range_length (n : nat) : List.length (all_levels (level_range n)) = n.
Proof.
  unfold level_range. simpl. rewrite length_map, length_seq. reflexivity.
Qed.

(** X9.  On a template that loaded, every series that is defined among
    range, damage, hitpoints, laboratory level, speed, level, upgrade cost,
    ability time, ability troop count and required town hall has exactly one
    value per level block of the source; the series of upgrade times and of
    regeneration times, from which the levels without a value are dropped,
    have at most that many. *)
Theorem series_have_one_value_per_level (PETS_ORDER : list string)
    (buildings : list (string * json)) (cname : string) (json_meta : list (string * json))
    (i : Z) (nm : string) (l2t : list (Z * Z)) (t : template) :
  _load_json_meta PETS_ORDER buildings cname json_meta i nm l2t = Ok t ->
  (forall s, range t = Some s \/ dps t = Some s \/ hitpoints t = Some s ->
             List.length (all_levels s) = List.length (levels_available json_meta))
  /\ forall attrs, loaded_attrs t = Some attrs ->
       (forall s, lab_level attrs = Some s \/ speed attrs = Some s \/ level attrs = Some s
                  \/ upgrade_cost attrs = Some s \/ ability_time attrs = Some s
                  \/ ability_troop_count attrs = Some s \/ required_th_level attrs = Some s ->
                  List.length (all_levels s) = List.length (levels_available json_meta))
       /\ (forall s, upgrade_time attrs = Some s \/ regeneration_time attrs = Some s ->
                     (List.length (all_levels s) <= List.length (levels_available json_meta))%nat).
Proof.
  unfold _load_json_meta. intros H.
  destruct (level_fields json_meta "AttackRange" JNull) as [rs|e] eqn:Er; simpl in H;
    [|discriminate].
  destruct (level_fields json_meta "DPS" JNull) as [ds|e] eqn:Ed; simpl in H; [|discriminate].
  destruct (level_fields json_meta "Hitpoints" JNull) as [hs|e] eqn:Eh; simpl in H;
    [|discriminate].
  destruct (laboratory_levels _ _ _ _) as [outcome|e] eqn:El; simpl in H; [|discriminate].
  apply level_fields_length in Er, Ed, Eh.
  assert (Hbase : forall s,
             try_enum_UnitStat is_null rs = Some s \/ try_enum_UnitStat is_null ds = Some s
             \/ try_enum_UnitStat is_null hs = Some s ->
             List.length (all_levels s) = List.length (levels_available json_meta)).
  { intros s [Hs|[Hs|Hs]]; apply try_enum_some in Hs; rewrite Hs; assumption. }
  destruct outcome as [labs|].
  2:{ injection H as <-. simpl. split; [exact Hbase|]. intros attrs Ha. discriminate. }
  apply laboratory_levels_length in El.
  destruct (load_derived _ _ _) as [attrs0|e] eqn:Ea; simpl in H; [|discriminate].
  injection H as <-. simpl. split; [exact Hbase|].
  intros attrs Hattrs. injection Hattrs as <-.
  unfold load_derived in Ea.
  destruct (level_fields json_meta "Speed" JNull) as [ss|e] eqn:Es; simpl in Ea; [|discriminate].
  destruct (level_fields json_meta "UpgradeCost" JNull) as [cs|e] eqn:Ec; simpl in Ea;
    [|discriminate].
  destruct (level_deltas json_meta "UpgradeTimeH" _) as [us|e] eqn:Eu; simpl in Ea;
    [|discriminate].
  destruct (level_fields json_meta "AbilityTime" JNull) as [ats|e] eqn:Eat; simpl in Ea;
    [|discriminate].
  destruct (level_fields json_meta "AbilitySummonTroopCount" JNull) as [acs|e] eqn:Eac;
    simpl in Ea; [|discriminate].
  destruct (level_fields json_meta "RequiredTownHallLevel" JNull) as [qs|e] eqn:Eq;
    simpl in Ea; [|discriminate].
  destruct (level_deltas json_meta "RegenerationTimeMinutes" _) as [gs|e] eqn:Eg; simpl in Ea;
    [|discriminate].
  injection Ea as <-. simpl.
  apply level_fields_length in Es, Ec, Eat, Eac, Eq.
  apply level_deltas_length in Eu, Eg.
  split.
  - intros s [Hs|[Hs|[Hs|[Hs|[Hs|[Hs|Hs]]]]]];
      try (apply try_enum_some in Hs; rewrite Hs; assumption).
    + destruct (try_enum_UnitStat is_null ds) as [sd|] eqn:Esd; [|discriminate].
      injection Hs as <-. rewrite level_range_length.
      apply try_enum_some in Esd. rewrite Esd. exact Ed.
    + apply try_enum_some in Hs. rewrite Hs. destruct (existsb truthy qs); assumption.
  - intros s [Hs|Hs]; apply try_enum_some in Hs; rewrite Hs; assumption.
Qed.

Lemma series_have_one_value_per_level_witness :
  (forall s, range ex_knight_template = Some s \/ dps ex_knight_template = Some s
             \/ hitpoints ex_knight_template = Some s ->
             List.length (all_levels s) = List.length (levels_available ex_knight))
  /\ forall attrs, loaded_attrs ex_knight_template = Some attrs ->
       (forall s, lab_level attrs = Some s \/ speed attrs = Some s \/ level attrs = Some s
                  \/ upgrade_cost attrs = Some s \/ ability_time attrs = Some s
                  \/ ability_troop_count attrs = Some s \/ required_th_level attrs = Some s ->
                  List.length (all_levels s) = List.length (levels_available ex_knight))
       /\ (forall s, upgrade_time attrs = Some s \/ regeneration_time attrs = Some s ->
                     (List.length (all_levels s) <= List.length (levels_available ex_knight))%nat).
Proof.
  apply (series_have_one_value_per_level ex_pets_order ex_buildings "Troop" ex_knight 2000
           "Knight" ex_lab_to_townhall ex_knight_template).
  vm_compute. reflexivity.
Defined.

Lemma level_field_raises (json_meta : list (string * json)) (f : string) (d : json)
    (lv : string) (e : exn) :
  level_field json_meta f d lv = Raise e -> e = AttributeError.
Proof.
  unfold level_field, py_get. destruct (dict_get_default json_meta lv JNull); congruence.
Qed.

Lemma mapM_raises {A B : Type} (f : A -> result B) (xs : list A) (x : A) (e : exn) :
  (forall y e', f y = Raise e' -> e' = e) ->
  In x xs -> f x = Raise e -> mapM f xs = Raise e.
Proof.
  intros Hall. induction xs as [|y xs IH]; intros Hin Hx; [destruct Hin|].
  simpl. destruct (f y) as [b|e'] eqn:E.
  - destruct Hin as [->|Hin]; [congruence|]. simpl. rewrite (IH Hin Hx). reflexivity.
  - simpl. rewrite (Hall _ _ E). reflexivity.
Qed.

Lemma level_fields_bad_block (json_meta : list (string * json)) (f : string) (d : json)
    (lv : string) :
  In lv (levels_available json_meta) ->
  is_dict (dict_get_default json_meta lv JNull) = false ->
  level_fields json_meta f d = Raise AttributeError.
Proof.
  intros Hin Hbad. unfold level_fields. apply (mapM_raises _ _ lv).
  - intros y e'. apply level_field_raises.
  - exact Hin.
  - unfold level_field, py_get. destruct (dict_get_default json_meta lv JNull);
      try reflexivity. discriminate.
Qed.

(** X10.  An entry with a numeric key whose value is not a dict cannot be
    loaded: [_load_json_meta] raises [AttributeError], whatever the
    production building, the unlock table and the map are. *)
Theorem bad_level_block_raises (PETS_ORDER : list string) (buildings : list (string * json))
    (cname : string) (json_meta : list (string * json)) (i : Z) (nm : string)
    (l2t : list (Z * Z)) (lv : string) :
  In lv (levels_available json_meta) ->
  is_dict (dict_get_default json_meta lv JNull) = false ->
  _load_json_meta PETS_ORDER buildings cname json_meta i nm l2t = Raise AttributeError.
Proof.
  intros Hin Hbad. unfold _load_json_meta.
  rewrite (level_fields_bad_block _ "AttackRange" JNull _ Hin Hbad). reflexivity.
Qed.

Lemma bad_level_block_raises_witness :
  _load_json_meta ex_pets_order ex_buildings "Troop" ex_bad_block 2000 "Knight"
    ex_lab_to_townhall = Raise AttributeError.
Proof.
  apply (bad_level_block_raises ex_pets_order ex_buildings "Troop" ex_bad_block 2000 "Knight"
           ex_lab_to_townhall "2").
  - right. left. reflexivity.
  - reflexivity.
Defined.

(** X11.  On the floored path (barracks family with a [BarrackLevel] that is
    set, or pet shop), when the unlock table has no entry for the production
    building, [_load_json_meta] raises [AttributeError]. *)
Theorem missing_unlock_building_raises (PETS_ORDER : list string)
    (buildings : list (string * json)) (cname : string) (json_meta : list (string * json))
    (i : Z) (nm : string) (l2t : list (Z * Z)) (rs : list json) (pb : string) :
  level_fields json_meta "AttackRange" JNull = Ok rs ->
  fst (production_building PETS_ORDER nm json_meta) = JStr pb ->
  floored_path (JStr pb) json_meta = true ->
  dict_get buildings pb = None ->
  _load_json_meta PETS_ORDER buildings cname json_meta i nm l2t = Raise AttributeError.
Proof.
  intros Hr Hpb Hpath Hnone. unfold _load_json_meta. rewrite Hr.
  destruct (level_fields_ok _ _ "DPS" _ JNull _ Hr) as [? ->].
  destruct (level_fields_ok _ _ "Hitpoints" _ JNull _ Hr) as [? ->].
  assert (Hfloor : floor_level buildings l2t (JStr pb) json_meta = Raise AttributeError).
  { unfold floor_level, buildings_get, dict_get_default. rewrite Hnone.
    cbn [rbind]. destruct (min_prod_unit_level (JStr pb) json_meta) as [m|e] eqn:Em.
    - reflexivity.
    - unfold min_prod_unit_level in Em.
      destruct (json_in (JStr pb) barracks_family); [discriminate|].
      unfold py_get in Em. cbn [rbind].
      destruct (dict_get_default json_meta "1" JNull); congruence. }
  cbn [rbind]. rewrite Hpb, (laboratory_levels_floored _ _ _ _ Hpath), Hfloor. reflexivity.
Qed.

Lemma missing_unlock_building_raises_witness :
  _load_json_meta ex_pets_order ex_buildings "Troop" ex_builder_troop 2000 "Boxer Giant"
    ex_lab_to_townhall = Raise AttributeError.
Proof.
  apply (missing_unlock_building_raises ex_pets_order ex_buildings "Troop" ex_builder_troop 2000
           "Boxer Giant" ex_lab_to_townhall [JNull] "Barrack2"); reflexivity.
Defined.

Lemma laboratory_levels_not_derivable (buildings : list (string * json)) (l2t : list (Z * Z))
    (json_meta : list (string * json)) (pb : json) (outcome : lab_outcome) :
  laboratory_levels buildings l2t json_meta pb = Ok outcome ->
  (outcome = NotDerivable
   <-> truthy pb = true /\ json_in pb barracks_family = false /\ eq_str pb "Pet Shop" = false).
Proof.
  unfold laboratory_levels, floor_levels. intros H.
  destruct (truthy pb) eqn:Et; cbn [negb] in H.
  - destruct (buildings_get buildings pb); cbn [rbind] in H; [|discriminate].
    destruct (json_in pb barracks_family) eqn:Ej.
    + assert (exists labs, outcome = LabLevels labs) as [labs ->].
      { repeat match type of H with
               | Ok _ = Ok _ => injection H as <-
               | rbind ?m _ = _ => destruct m; cbn [rbind] in H; [|discriminate]
               | (if ?c then _ else _) = _ => destruct c
               end; eexists; reflexivity. }
      split; [discriminate | intros (_ & ? & _); discriminate].
    + destruct (eq_str pb "Pet Shop") eqn:Ep.
      * assert (exists labs, outcome = LabLevels labs) as [labs ->].
        { repeat match type of H with
                 | Ok _ = Ok _ => injection H as <-
                 | rbind ?m _ = _ => destruct m; cbn [rbind] in H; [|discriminate]
                 end; eexists; reflexivity. }
        split; [discriminate | intros (_ & _ & ?); discriminate].
      * injection H as <-. split; [intros _; repeat split | reflexivity].
  - destruct (level_fields json_meta "LaboratoryLevel" JNull); cbn [rbind] in H; [|discriminate].
    injection H as <-. split; [discriminate | intros (? & _); discriminate].
Qed.

(** X12.  A class [_load_json_meta] leaves without an exception is not
    loaded exactly when the production building the resolution goes on with
    is set, is not of the barracks family and is not the pet shop. *)
Theorem not_loaded_iff_unknown_building (PETS_ORDER : list string)
    (buildings : list (string * json)) (cname : string) (json_meta : list (string * json))
    (i : Z) (nm : string) (l2t : list (Z * Z)) (t : template) :
  _load_json_meta PETS_ORDER buildings cname json_meta i nm l2t = Ok t ->
  (is_loaded t = false
   <-> truthy (fst (production_building PETS_ORDER nm json_meta)) = true
       /\ json_in (fst (production_building PETS_ORDER nm json_meta)) barracks_family = false
       /\ eq_str (fst (production_building PETS_ORDER nm json_meta)) "Pet Shop" = false).
Proof.
  intros H.
  destruct (_load_json_meta_inv _ _ _ _ _ _ _ _ H) as (outcome & L & _ & _ & _ & Hout).
  rewrite <- (laboratory_levels_not_derivable _ _ _ _ _ L).
  unfold is_loaded. destruct outcome as [labs|].
  - destruct Hout as (attrs & -> & _). split; discriminate.
  - rewrite Hout. split; reflexivity.
Qed.

Lemma not_loaded_iff_unknown_building_witness :
  is_loaded ex_foo_template = false
  <-> truthy (fst (production_building ex_pets_order "Foo Fighter" ex_foo)) = true
      /\ json_in (fst (production_building ex_pets_order "Foo Fighter" ex_foo)) barracks_family
         = false
      /\ eq_str (fst (production_building ex_pets_order "Foo Fighter" ex_foo)) "Pet Shop" = false.
Proof.
  apply (not_loaded_iff_unknown_building ex_pets_order ex_buildings "Troop" ex_foo 2000
           "Foo Fighter" ex_lab_to_townhall ex_foo_template).
  vm_compute. reflexivity.
Defined.

Lemma stat_at_level_range (n : nat) (k : Z) :
  stat_at (level_range n) k
  = if (1 <=? k) && (k <=? Z.of_nat n) then Some (JInt k) else None.
Proof.
  unfold stat_at. rewrite level_range_length.
  destruct (Z.leb_spec 1 k); simpl; [|reflexivity].
  destruct (Z.leb_spec k (Z.of_nat n)); simpl; [|reflexivity].
  rewrite nth_error_map, nth_error_seq.
  destruct (Nat.ltb_spec (Z.to_nat (k - 1)) n); [|lia].
  simpl. f_equal. f_equal. lia.
Qed.

(** X13.  On a template that loaded, the series of levels is undefined when
    the damage series is; otherwise it counts the levels of the damage
    series: its value at level [k] is [k] for [k] from 1 to the number of
    levels, and it has no value at any other [k]. *)
Theorem level_series_counts_levels (PETS_ORDER : list string)
    (buildings : list (string * json)) (cname : string) (json_meta : list (string * json))
    (i : Z) (nm : string) (l2t : list (Z * Z)) (t : template) (attrs : derived) :
  _load_json_meta PETS_ORDER buildings cname json_meta i nm l2t = Ok t ->
  loaded_attrs t = Some attrs ->
  match dps t with
  | None => level attrs = None
  | Some s =>
      exists lv,
        level attrs = Some lv
        /\ forall k : Z,
             stat_at lv k
             = if (1 <=? k) && (k <=? Z.of_nat (List.length (all_levels s)))
               then Some (JInt k) else None
  end.
Proof.
  intros H Hattrs.
  destruct (_load_json_meta_inv _ _ _ _ _ _ _ _ H) as (outcome & _ & _ & _ & _ & Hout).
  destruct outcome as [labs|]; [|congruence].
  destruct Hout as (attrs' & Hattrs' & Hder).
  rewrite Hattrs in Hattrs'. injection Hattrs' as <-.
  unfold load_derived in Hder.
  repeat match type of Hder with
         | rbind ?m _ = _ => destruct m; cbn [rbind] in Hder; [|discriminate]
         end.
  injection Hder as <-. cbn [level].
  destruct (dps t) as [s|]; [|reflexivity].
  eexists. split; [reflexivity|]. intros k. apply stat_at_level_range.
Qed.

Lemma level_series_counts_levels_witness :
  match dps ex_knight_template with
  | None => level (ok_or_attrs ex_knight_template) = None
  | Some s =>
      exists lv,
        level (ok_or_attrs ex_knight_template) = Some lv
        /\ forall k : Z,
             stat_at lv k
             = if (1 <=? k) && (k <=? Z.of_nat (List.length (all_levels s)))
               then Some (JInt k) else None
  end.
Proof.
  apply (level_series_counts_levels ex_pets_order ex_buildings "Troop" ex_knight 2000 "Knight"
           ex_lab_to_townhall ex_knight_template); vm_compute; reflexivity.
Defined.

(** ** A [ProductionBuilding] that is not set *)

Lemma falsy_not_eq_str (v : json) (s : string) :
  truthy v = false -> s <> "" -> eq_str v s = false.
Proof.
  destruct v; simpl; try reflexivity. intros H Hs.
  apply negb_false_iff in H. apply String.eqb_eq in H. subst.
  destruct s; [congruence | reflexivity].
Qed.

Lemma laboratory_levels_falsy (buildings : list (string * json)) (l2t : list (Z * Z))
    (json_meta : list (string * json)) (v : json) :
  truthy v = false ->
  laboratory_levels buildings l2t json_meta v = laboratory_levels buildings l2t json_meta JNull.
Proof.
  intros H. unfold laboratory_levels. rewrite H. reflexivity.
Qed.

Lemma laboratory_levels_remove_ProductionBuilding (buildings : list (string * json))
    (l2t : list (Z * Z)) (json_meta : list (string * json)) (pb : json) :
  laboratory_levels buildings l2t (dict_remove "ProductionBuilding" json_meta) pb
  = laboratory_levels buildings l2t json_meta pb.
Proof.
  unfold laboratory_levels.
  rewrite !level_fields_remove by reflexivity.
  rewrite !dict_get_default_remove_ne by discriminate.
  reflexivity.
Qed.

Lemma load_derived_remove_ProductionBuilding (d : list (string * json))
    (dps : option (UnitStat json)) (labs : list json) :
  load_derived (dict_remove "ProductionBuilding" d) dps labs = load_derived d dps labs.
Proof.
  unfold load_derived.
  rewrite !level_fields_remove, !level_deltas_remove by reflexivity.
  rewrite !dict_get_default_remove_ne by discriminate.
  reflexivity.
Qed.

(** X14.  An entry whose [ProductionBuilding] is present but not set (the
    empty text, 0, or any value Python counts as false) loads exactly as the
    same entry without that key: as a pet when it is named after one, as a
    hero otherwise. *)
Theorem unset_ProductionBuilding_like_absent (PETS_ORDER : list string)
    (buildings : list (string * json)) (cname : string) (json_meta : list (string * json))
    (i : Z) (nm : string) (l2t : list (Z * Z)) (v : json) :
  dict_get json_meta "ProductionBuilding" = Some v ->
  truthy v = false ->
  dict_get (dict_remove "ProductionBuilding" json_meta) "ProductionBuilding" = None
  /\ _load_json_meta PETS_ORDER buildings cname json_meta i nm l2t
     = _load_json_meta PETS_ORDER buildings cname
         (dict_remove "ProductionBuilding" json_meta) i nm l2t.
Proof.
  intros Hget Hv. split; [apply dict_get_remove_eq|].
  assert (Hpb : production_building PETS_ORDER nm json_meta
                = if str_in nm PETS_ORDER then (JStr "Pet Shop", None) else (v, None)).
  { unfold production_building, dict_get_default. rewrite Hget.
    rewrite !(falsy_not_eq_str v _ Hv) by discriminate. reflexivity. }
  assert (Hpb' : production_building PETS_ORDER nm (dict_remove "ProductionBuilding" json_meta)
                 = if str_in nm PETS_ORDER then (JStr "Pet Shop", None) else (JNull, None)).
  { unfold production_building, dict_get_default. rewrite dict_get_remove_eq. reflexivity. }
  unfold _load_json_meta. rewrite Hpb, Hpb'.
  rewrite !level_fields_remove by reflexivity.
  rewrite !dict_get_default_remove_ne by discriminate.
  rewrite laboratory_levels_remove_ProductionBuilding.
  destruct (str_in nm PETS_ORDER); cbn [fst snd];
    [|rewrite (laboratory_levels_falsy _ _ _ _ Hv)];
    (destruct (level_fields json_meta "AttackRange" JNull); cbn [rbind]; [|reflexivity];
     destruct (level_fields json_meta "DPS" JNull); cbn [rbind]; [|reflexivity];
     destruct (level_fields json_meta "Hitpoints" JNull); cbn [rbind]; [|reflexivity];
     destruct (laboratory_levels _ _ _ _) as [[labs|]|e]; cbn [rbind]; try reflexivity;
     rewrite load_derived_remove_ProductionBuilding; reflexivity).
Qed.

Lemma unset_ProductionBuilding_like_absent_witness :
  dict_get (dict_remove "ProductionBuilding" ex_empty_building) "ProductionBuilding" = None
  /\ _load_json_meta ex_pets_order ex_buildings "Hero" ex_empty_building 2000 "Barbarian King"
       ex_lab_to_townhall
     = _load_json_meta ex_pets_order ex_buildings "Hero"
         (dict_remove "ProductionBuilding" ex_empty_building) 2000 "Barbarian King"
         ex_lab_to_townhall.
Proof.
  apply (unset_ProductionBuilding_like_absent ex_pets_order ex_buildings "Hero"
           ex_empty_building 2000 "Barbarian King" ex_lab_to_townhall (JStr ""));
    reflexivity.
Defined.

(** ** The floor the reverse lookup gives *)

(** X15.  When the floor of a unit is found, the map sends it to the
    required town-hall level, and it is the only laboratory level the map
    sends there. *)
Theorem floor_is_the_only_match (buildings : list (string * json)) (l2t : list (Z * Z))
    (pb : json) (json_meta : list (string * json)) (first : Z) :
  floor_level buildings l2t pb json_meta = Ok first ->
  exists th,
    min_th_level buildings pb json_meta = Ok th
    /\ (exists t', In (first, t') l2t /\ eq_int t' th = true)
    /\ forall lab t', In (lab, t') l2t -> eq_int t' th = true -> lab = first.
Proof.
  rewrite floor_level_min_th. intros H.
  destruct (min_th_level buildings pb json_meta) as [th|e]; cbn [rbind] in H; [|discriminate].
  exists th. split; [reflexivity|]. unfold first_lab_level in H.
  destruct (List.filter (fun kv => eq_int (snd kv) th) l2t) as [|kv [|kv' rest]] eqn:E;
    try discriminate.
  injection H as <-. split.
  - exists (snd kv). assert (Hin : In kv (List.filter (fun kv => eq_int (snd kv) th) l2t))
      by (rewrite E; left; reflexivity).
    apply filter_In in Hin as [Hin Hth]. destruct kv. split; assumption.
  - intros lab t' Hin Hth.
    assert (Hf : In (lab, t') (List.filter (fun kv => eq_int (snd kv) th) l2t))
      by (apply filter_In; split; assumption).
    rewrite E in Hf. destruct Hf as [Hf|[]]. rewrite Hf. reflexivity.
Qed.

Lemma floor_is_the_only_match_witness :
  exists th,
    min_th_level ex_buildings (JStr "Barrack") ex_knight = Ok th
    /\ (exists t', In (5, t') ex_lab_to_townhall /\ eq_int t' th = true)
    /\ forall lab t', In (lab, t') ex_lab_to_townhall -> eq_int t' th = true -> lab = 5.
Proof.
  apply (floor_is_the_only_match ex_buildings ex_lab_to_townhall (JStr "Barrack") ex_knight 5).
  reflexivity.
Defined.

(** * The other members of [DataContainer] *)

(** X16.  Feeding [_to_dict()] of an instance back to the constructor keeps
    the name, level, maximum level and village but loses the active flag:
    [_to_dict] writes it under [is_active], the constructor reads
    [superTroopIsActive], so the new instance has [None] there. *)
Theorem to_dict_loses_active_flag (item : pyclass) (townhall : json) (x : instance) :
  exists y,
    __init__ item (_to_dict x) townhall = Ok y
    /\ inst_name y = inst_name x
    /\ inst_level y = inst_level x
    /\ max_level y = max_level x
    /\ inst_village y = inst_village x
    /\ is_active y = JNull
    /\ dict_get (_to_dict x) "is_active" = Some (is_active x).
Proof.
  eexists. repeat split.
Qed.

(** X17.  No instance is both of the home base and of the builder base. *)
Theorem home_and_builder_base_exclude (x : instance) :
  is_home_base x && is_builder_base x = false.
Proof.
  unfold is_home_base, is_builder_base. destruct (inst_village x); try reflexivity.
  simpl. destruct (String.eqb_spec s "home") as [->|]; reflexivity.
Qed.

(** ** [_load_from_parent] *)

Lemma _load_from_parent_untouched {V : Type} (parent_dict : list (string * V))
    (class_dict : gmap string V) (k : string) :
  (contains "__" k = true \/ forall v, ~ In (k, v) parent_dict) ->
  _load_from_parent class_dict parent_dict !! k = class_dict !! k.
Proof.
  unfold _load_from_parent. revert class_dict.
  induction parent_dict as [|[k0 v0] rest IH]; intros class_dict H; simpl; [reflexivity|].
  rewrite IH.
  - destruct (contains "__" k0) eqn:E; [reflexivity|].
    apply lookup_insert_ne. intros ->. destruct H as [H|H]; [congruence|].
    apply (H v0). left. reflexivity.
  - destruct H as [H|H]; [left; exact H|]. right. intros v Hin. apply (H v). right. exact Hin.
Qed.

(** X18.  After [_load_from_parent], for a parent whose attributes have
    distinct names: an attribute of the parent whose name holds no double
    underscore is on the class with the parent's value; every other name,
    those with a double underscore among them, is on the class as it was
    before. *)
Theorem _load_from_parent_lookup {V : Type} (class_dict : gmap string V)
    (parent_dict : list (string * V)) (k : string) :
  NoDup (List.map fst parent_dict) ->
  (forall v, In (k, v) parent_dict -> contains "__" k = false ->
             _load_from_parent class_dict parent_dict !! k = Some v)
  /\ (contains "__" k = true \/ (forall v, ~ In (k, v) parent_dict) ->
      _load_from_parent class_dict parent_dict !! k = class_dict !! k).
Proof.
  intros Hnd. split; [|apply _load_from_parent_untouched].
  revert class_dict Hnd.
  induction parent_dict as [|[k0 v0] rest IH]; intros class_dict Hnd v Hin Hk; [destruct Hin|].
  apply NoDup_cons_iff in Hnd as [Hfresh Hnd]. simpl in Hfresh.
  destruct Hin as [Heq|Hin].
  - injection Heq as -> ->. unfold _load_from_parent. simpl. rewrite Hk.
    fold (_load_from_parent (<[k:=v]> class_dict) rest).
    rewrite _load_from_parent_untouched.
    + apply lookup_insert_eq.
    + right. intros v' Hin. apply Hfresh. apply in_map_iff. exists (k, v'). split; [reflexivity|exact Hin].
  - unfold _load_from_parent. simpl.
    apply (IH _ Hnd v Hin Hk).
Qed.

Lemma _load_from_parent_lookup_witness :
  (forall v, In ("dps", v) [("dps", 7); ("__doc__", 1); ("level", 3)] ->
             contains "__" "dps" = false ->
             _load_from_parent ({[ "dps" := 0; "__doc__" := 9 ]} : gmap string Z)
               [("dps", 7); ("__doc__", 1); ("level", 3)] !! "dps" = Some v)
  /\ (contains "__" "dps" = true
      \/ (forall v, ~ In ("dps", v) [("dps", 7); ("__doc__", 1); ("level", 3)]) ->
      _load_from_parent ({[ "dps" := 0; "__doc__" := 9 ]} : gmap string Z)
        [("dps", 7); ("__doc__", 1); ("level", 3)] !! "dps"
      = ({[ "dps" := 0; "__doc__" := 9 ]} : gmap string Z) !! "dps").
Proof.
  apply (_load_from_parent_lookup ({[ "dps" := 0; "__doc__" := 9 ]} : gmap string Z)
           [("dps", 7); ("__doc__", 1); ("level", 3)] "dps").
  repeat constructor; simpl; intuition discriminate.
Defined.

(** * [BasePlayer] *)

Lemma lstrip_repeat (c : ascii) (n : nat) (s : string) :
  lstrip c (repeat_char c n +:+ s) = lstrip c s.
Proof.
  induction n as [|n IH]; simpl; [reflexivity|]. rewrite Ascii.eqb_refl. exact IH.
Qed.

Lemma rstrip_all (c : ascii) (m : nat) : rstrip c (repeat_char c m) = EmptyString.
Proof.
  induction m as [|m IH]; simpl; [reflexivity|]. rewrite IH, Ascii.eqb_refl. reflexivity.
Qed.

Lemma rstrip_repeat (c : ascii) (m : nat) (s : string) :
  rstrip c (s +:+ repeat_char c m) = rstrip c s.
Proof.
  induction s as [|a s IH]; simpl.
  - apply rstrip_all.
  - rewrite IH. reflexivity.
Qed.

Lemma lstrip_keeps (c : ascii) (s : string) :
  first_char s <> Some c -> lstrip c s = s.
Proof.
  destruct s as [|a s]; simpl; [reflexivity|]. intros H.
  destruct (Ascii.eqb_spec a c); [congruence | reflexivity].
Qed.

Lemma rstrip_keeps (c : ascii) (s : string) :
  last_char s <> Some c -> rstrip c s = s.
Proof.
  induction s as [|a s IH]; [reflexivity|]. intros H.
  destruct s as [|b s].
  - simpl in *. destruct (Ascii.eqb_spec a c); [congruence | reflexivity].
  - change (last_char (String a (String b s))) with (last_char (String b s)) in H.
    change (rstrip c (String a (String b s)))
      with (match rstrip c (String b s) with
            | EmptyString => if Ascii.eqb a c then EmptyString else String a EmptyString
            | r => String a r
            end).
    rewrite (IH H). reflexivity.
Qed.

Lemma strip_hashes (c : ascii) (n m : nat) (s : string) :
  first_char s <> Some c -> last_char s <> Some c ->
  strip c (repeat_char c n +:+ s +:+ repeat_char c m) = s.
Proof.
  intros Hf Hl. unfold strip. rewrite lstrip_repeat.
  destruct s as [|a s].
  - simpl. clear. induction m as [|m IH]; simpl; [reflexivity|].
    rewrite Ascii.eqb_refl. exact IH.
  - assert (Hk : lstrip c (String a s +:+ repeat_char c m) = String a s +:+ repeat_char c m).
    { simpl in *. destruct (Ascii.eqb_spec a c); [congruence | reflexivity]. }
    rewrite Hk, rstrip_repeat. apply rstrip_keeps. exact Hl.
Qed.

(** X19.  The share link of a player ends with the tag without the [#]
    characters in front of it and after it, however many there are; the
    characters between are kept. *)
Theorem share_link_strips_hashes (data : list (string * json)) (client : option json)
    (n m : nat) (s : string) :
  dict_get data "tag" = Some (JStr (repeat_char "#" n +:+ s +:+ repeat_char "#" m)) ->
  first_char s <> Some "#"%char ->
  last_char s <> Some "#"%char ->
  BasePlayer.share_link (BasePlayer.__init__ data client)
  = Ok ("https://link.clashroyale.com/?playerInfo?id=" +:+ s).
Proof.
  intros Htag Hf Hl. unfold BasePlayer.share_link, BasePlayer.__init__. cbn [BasePlayer.tag].
  unfold dict_get_default. rewrite Htag. rewrite (strip_hashes _ _ _ _ Hf Hl). reflexivity.
Qed.

Lemma share_link_strips_hashes_witness :
  BasePlayer.share_link
    (BasePlayer.__init__ [("tag", JStr "##2P#Q8#"); ("name", JStr "Ann")] None)
  = Ok ("https://link.clashroyale.com/?playerInfo?id=" +:+ "2P#Q8").
Proof.
  apply (share_link_strips_hashes [("tag", JStr "##2P#Q8#"); ("name", JStr "Ann")] None
           2 1 "2P#Q8").
  - reflexivity.
  - discriminate.
  - discriminate.
Defined.

(** X20.  The share link of a player whose data has no tag, or a tag that is
    no text, raises [AttributeError]. *)
Theorem share_link_needs_text_tag (data : list (string * json)) (client : option json) :
  (forall s, dict_get data "tag" <> Some (JStr s)) ->
  BasePlayer.share_link (BasePlayer.__init__ data client) = Raise AttributeError.
Proof.
  intros H. unfold BasePlayer.share_link, BasePlayer.__init__. cbn [BasePlayer.tag].
  unfold dict_get_default. destruct (dict_get data "tag") as [[]|]; try reflexivity.
  exfalso. apply (H s). reflexivity.
Qed.

Lemma share_link_needs_text_tag_witness :
  BasePlayer.share_link (BasePlayer.__init__ [("name", JStr "Ann")] None)
  = Raise AttributeError.
Proof.
  apply (share_link_needs_text_tag [("name", JStr "Ann")] None).
  intros s. discriminate.
Defined.

(** X21.  Two players whose data hold text tags are equal exactly when the
    tags are the same text: the names, the clients and every other field
    play no part; and a player equals nothing that is no [BasePlayer]. *)
Theorem players_equal_iff_same_tag (d1 d2 : list (string * json)) (c1 c2 : option json)
    (s1 s2 : string) :
  dict_get d1 "tag" = Some (JStr s1) ->
  dict_get d2 "tag" = Some (JStr s2) ->
  (BasePlayer.__eq__ (BasePlayer.__init__ d1 c1) (Some (BasePlayer.__init__ d2 c2)) = true
   <-> s1 = s2)
  /\ BasePlayer.__eq__ (BasePlayer.__init__ d1 c1) None = false.
Proof.
  intros H1 H2. split; [|reflexivity].
  unfold BasePlayer.__eq__, BasePlayer.__init__. cbn [BasePlayer.tag].
  unfold dict_get_default. rewrite H1, H2. simpl. apply String.eqb_eq.
Qed.

Lemma players_equal_iff_same_tag_witness :
  (BasePlayer.__eq__
     (BasePlayer.__init__ [("tag", JStr "#2PQ8"); ("name", JStr "Ann")] None)
     (Some (BasePlayer.__init__ [("name", JStr "Bob"); ("tag", JStr "#2PQ8")]
              (Some (JBool true)))) = true
   <-> "#2PQ8" = "#2PQ8")
  /\ BasePlayer.__eq__
       (BasePlayer.__init__ [("tag", JStr "#2PQ8"); ("name", JStr "Ann")] None) None = false.
Proof.
  apply (players_equal_iff_same_tag [("tag", JStr "#2PQ8"); ("name", JStr "Ann")]
           [("name", JStr "Bob"); ("tag", JStr "#2PQ8")] None (Some (JBool true))
           "#2PQ8" "#2PQ8"); reflexivity.
Defined.

(** * Levels without a laboratory level, and growth of the registry *)

Lemma mapM_In {A B : Type} (f : A -> result B) (xs : list A) (ys : list B) (x : A) :
  mapM f xs = Ok ys -> In x xs -> exists y, In y ys /\ f x = Ok y.
Proof.
  intros H Hin. apply In_nth_error in Hin as [k Hk].
  destruct (mapM_nth _ _ _ _ _ H Hk) as (y & Hy & Hfx).
  exists y. split; [apply (nth_error_In _ _ Hy) | exact Hfx].
Qed.

Lemma mapM_all_ok {A B : Type} (f : A -> result B) (xs : list A) :
  (forall x, In x xs -> exists y, f x = Ok y) -> exists ys, mapM f xs = Ok ys.
Proof.
  induction xs as [|x xs IH]; intros H; simpl; [eexists; reflexivity|].
  destruct (H x (or_introl eq_refl)) as [y ->].
  destruct IH as [ys ->]; [intros z Hz; apply H; right; exact Hz|].
  simpl. eexists. reflexivity.
Qed.

Lemma py_max_raises (v : json) (n : Z) (e : exn) : py_max v n = Raise e -> e = TypeError.
Proof.
  unfold py_max. destruct (int_val v); congruence.
Qed.

(** X22.  On the pet-shop path, once the floor is found, a level block
    without [LaboratoryLevel] makes [_load_json_meta] raise [TypeError]:
    there the raw value is [None], which [max] cannot compare with the floor
    (on the barracks path such a level counts as 1). *)
Theorem pet_level_without_lab_level_raises (PETS_ORDER : list string)
    (buildings : list (string * json)) (cname : string) (json_meta : list (string * json))
    (i : Z) (nm : string) (l2t : list (Z * Z)) (first : Z) (lv : string)
    (block : list (string * json)) :
  eq_str (fst (production_building PETS_ORDER nm json_meta)) "Pet Shop" = true ->
  floor_level buildings l2t (fst (production_building PETS_ORDER nm json_meta)) json_meta
    = Ok first ->
  (forall l, In l (levels_available json_meta) ->
             is_dict (dict_get_default json_meta l JNull) = true) ->
  In lv (levels_available json_meta) ->
  dict_get json_meta lv = Some (JDict block) ->
  dict_get block "LaboratoryLevel" = None ->
  _load_json_meta PETS_ORDER buildings cname json_meta i nm l2t = Raise TypeError.
Proof.
  intros Hpet Hfloor Hdicts Hin Hblock Hnone.
  assert (Hok : forall f d, exists vs, level_fields json_meta f d = Ok vs).
  { intros f d. unfold level_fields.
    assert (Hall : forall l, In l (levels_available json_meta) ->
                             exists v, level_field json_meta f d l = Ok v).
    { intros l Hl. specialize (Hdicts l Hl). unfold level_field, py_get.
      destruct (dict_get_default json_meta l JNull); try discriminate. eexists. reflexivity. }
    apply mapM_all_ok. exact Hall. }
  assert (Hpath : floored_path (fst (production_building PETS_ORDER nm json_meta)) json_meta
                  = true).
  { unfold floored_path. rewrite Hpet.
    destruct (production_building PETS_ORDER nm json_meta) as [pb fl]. simpl in *.
    destruct pb; try discriminate. apply String.eqb_eq in Hpet. subst. reflexivity. }
  assert (Hfam : json_in (fst (production_building PETS_ORDER nm json_meta)) barracks_family
                 = false).
  { destruct (production_building PETS_ORDER nm json_meta) as [pb fl]. simpl in *.
    destruct pb; try discriminate. apply String.eqb_eq in Hpet. subst. reflexivity. }
  unfold _load_json_meta.
  destruct (Hok "AttackRange" JNull) as [? ->]. destruct (Hok "DPS" JNull) as [? ->].
  destruct (Hok "Hitpoints" JNull) as [? ->]. cbn [rbind].
  rewrite (laboratory_levels_floored _ _ _ _ Hpath), Hfloor. cbn [rbind].
  unfold raw_lab_levels. rewrite Hfam.
  destruct (Hok "LaboratoryLevel" JNull) as [raw Hraw]. rewrite Hraw. cbn [rbind].
  assert (Hnull : In JNull raw).
  { unfold level_fields in Hraw. destruct (mapM_In _ _ _ _ Hraw Hin) as (y & Hy & Hfy).
    unfold level_field, dict_get_default in Hfy. rewrite Hblock in Hfy. simpl in Hfy.
    unfold dict_get_default in Hfy. rewrite Hnone in Hfy. injection Hfy as <-. exact Hy. }
  unfold floor_levels.
  rewrite (mapM_raises (fun lab_level => py_max lab_level first) raw JNull TypeError).
  - reflexivity.
  - intros y e'. apply py_max_raises.
  - exact Hnull.
  - reflexivity.
Qed.

Lemma pet_level_without_lab_level_raises_witness :
  _load_json_meta ex_pets_order ex_buildings "Pet" ex_pet_gap 2000 "L.A.S.S.I"
    ex_lab_to_townhall = Raise TypeError.
Proof.
  apply (pet_level_without_lab_level_raises ex_pets_order ex_buildings "Pet" ex_pet_gap 2000
           "L.A.S.S.I" ex_lab_to_townhall 7 "2" [("DPS", JInt 12)]);
    try reflexivity.
  - intros l [<-|[<-|[]]]; reflexivity.
  - right. left. reflexivity.
Defined.

(** X23.  A load never takes anything out of the registry: the collection
    it leaves starts with the collection it found, and every name that
    resolved before the load resolves after it, whether or not the load
    ended with an exception. *)
Theorem load_only_adds (PETS_ORDER : list string) (buildings : list (string * json))
    (data : list (string * json)) (english_aliases : gmap string string) (l2t : list (Z * Z))
    (h : holder) :
  (exists more,
      items (fst (_load_json PETS_ORDER buildings data english_aliases l2t h))
      = (items h ++ more)%list)
  /\ forall q : string,
       get h q <> None ->
       get (fst (_load_json PETS_ORDER buildings data english_aliases l2t h)) q <> None.
Proof.
  destruct (_load_json_items PETS_ORDER buildings english_aliases l2t data h) as [Hi Hl].
  split.
  - rewrite Hi. apply load_entries_items.
  - intros q Hq. unfold get, ci_getitem in *. rewrite Hl.
    destruct (item_lookup h !! lower q) as [t|] eqn:E; [|congruence].
    destruct (load_entries_resolves PETS_ORDER buildings english_aliases l2t data 2000 h
                (lower q)) as [t' ->]; [rewrite E; eexists; reflexivity|].
    discriminate.
Qed.
